(** * Etherscan source submission (src/etherscan.ts)

    A shallow embedding of [submitSources] and of the helpers it closes over,
    followed by the properties of the verification pipeline.

    Conventions of the embedding.
    - A JavaScript object used as a map is an association list of its own
      properties, kept in the order [Object.keys] enumerates it; a property
      read returns the first binding, a property write updates that binding
      in place or appends.  Where the source uses a key that may name a
      property of [Object.prototype], the prototype is modelled as well: the
      reads [licensesFound[match]] (line 42) and
      [metadata.sources[contractFilepath]] (line 191) consult the inherited
      names, and the writes of lines 259 and 273 take the name [__proto__]
      to the accessor of the prototype, which creates no property.
    - [undefined] is [None].  Truthiness is written out wherever the source
      tests a value ([!x], [x && ...], [x || ...]): the empty string and the
      number zero are falsy, every object and array is truthy.
    - The records follow the shapes the source destructures (deployment
      records, compiler metadata, explorer responses); values the code never
      inspects are kept as [json].
    - Everything the file imports and does not define (the regular-expression
      scan of match-all, [JSON.parse], [JSON.stringify], the ABI coder, the
      file system and the explorer itself) is a field of an environment
      record [Env].
    - The computation is a function from a clock (the number of HTTP requests
      answered so far) to a result, the trace of the observable events and
      the new clock.  A [return] out of [submit], a rejected promise and an
      exhausted polling budget are the three ways a computation stops early. *)

From Stdlib Require Import String Ascii List ZArith Bool Arith Lia.
Import ListNotations.
Local Open Scope string_scope.
Local Open Scope list_scope.

Set Warnings "-register-all".

(** ** JavaScript values *)

(** A value produced by [JSON.parse].  A number is kept as an integer: the
    code only ever tests one for truth. *)
Inductive json : Type :=
| JNull
| JBool (b : bool)
| JNum (n : Z)
| JStr (s : string)
| JArr (items : list json)
| JObj (fields : list (string * json)).

(** [!!v] for a parsed value. *)
Definition truthy (v : json) : bool :=
  match v with
  | JNull => false
  | JBool b => b
  | JNum n => negb (n =? 0)%Z
  | JStr s => negb (s =? "")
  | JArr _ => true
  | JObj _ => true
  end.

(** [v === s] for a parsed value and a string. *)
Definition is_string (s : string) (v : json) : bool :=
  match v with
  | JStr s' => s' =? s
  | _ => false
  end.

(** [!!s] for a value that is a string or [undefined]. *)
Definition truthy_str (o : option string) : bool :=
  match o with
  | Some s => negb (s =? "")
  | None => false
  end.

(** [!!n] for a value that is a number or [undefined]. *)
Definition truthy_num (o : option Z) : bool :=
  match o with
  | Some n => negb (n =? 0)%Z
  | None => false
  end.

(** [a === b] on values that are strings or [undefined]. *)
Definition str_eq (a b : option string) : bool :=
  match a, b with
  | Some x, Some y => x =? y
  | None, None => true
  | _, _ => false
  end.

(** ** Objects as association lists *)

Section Obj.
Context {V : Type}.

Definition keys (o : list (string * V)) : list string := map fst o.

(** [o[k]] *)
Fixpoint obj_get (k : string) (o : list (string * V)) : option V :=
  match o with
  | [] => None
  | (k', v) :: rest => if k' =? k then Some v else obj_get k rest
  end.

(** [o[k] = v] *)
Fixpoint obj_set (k : string) (v : V) (o : list (string * V)) :
  list (string * V) :=
  match o with
  | [] => [(k, v)]
  | (k', v') :: rest =>
      if k' =? k then (k', v) :: rest else (k', v') :: obj_set k v rest
  end.
End Obj.

Definition obj (V : Type) : Type := list (string * V).

(** ** License helpers (lines 27-94) *)

(** The property names every object literal inherits; each of them reads as
    a truthy value on [{}]. *)
Definition objectPrototypeKeys : list string :=
  [ "constructor"; "__defineGetter__"; "__defineSetter__"; "hasOwnProperty";
    "__lookupGetter__"; "__lookupSetter__"; "isPrototypeOf";
    "propertyIsEnumerable"; "toString"; "valueOf"; "__proto__";
    "toLocaleString" ].

(** [m] names a property every object literal inherits. *)
Definition inherited (m : string) : bool :=
  existsb (String.eqb m) objectPrototypeKeys.

(** [!!licensesFound[m]] *)
Definition licenseSeen (found : obj bool) (m : string) : bool :=
  match obj_get m found with
  | Some b => b
  | None => existsb (String.eqb m) objectPrototypeKeys
  end.

(** The loop of [extractLicenseFromSources] over the array of matches:
    [found] is the object [licensesFound], [licenses] the array built. *)
Fixpoint collectLicenses (found : obj bool) (licenses : list string)
         (matches : list string) : list string :=
  match matches with
  | [] => licenses
  | m :: rest =>
      if licenseSeen found m
      then collectLicenses found licenses rest
      else collectLicenses (obj_set m true found) (licenses ++ [m]) rest
  end.

Definition getLicenseType (license : option string) : option Z :=
  match license with
  | None => None
  | Some l =>
      if l =? "None" then Some 1%Z
      else if l =? "UNLICENSED" then Some 2%Z
      else if l =? "MIT" then Some 3%Z
      else if l =? "GPL-2.0" then Some 4%Z
      else if l =? "GPL-3.0" then Some 5%Z
      else if l =? "LGPL-2.1" then Some 6%Z
      else if l =? "LGPL-3.0" then Some 7%Z
      else if l =? "BSD-2-Clause" then Some 8%Z
      else if l =? "BSD-3-Clause" then Some 9%Z
      else if l =? "MPL-2.0" then Some 10%Z
      else if l =? "OSL-3.0" then Some 11%Z
      else if l =? "Apache-2.0" then Some 12%Z
      else if l =? "AGPL-3.0" then Some 13%Z
      else None
  end.

(** ** Data the pipeline reads *)

(** One parameter of an ABI entry ([ParamType] of the ABI coder). *)
Record ParamType : Type := mkParamType {
  param_name : string;
  param_type : string }.

Record AbiEntry : Type := mkAbiEntry {
  abi_type : string;
  abi_inputs : list ParamType }.

(** A deployment record, [all[name]]. *)
Record Deployment : Type := mkDeployment {
  address : string;
  metadata : option string;
  abi : list AbiEntry;
  args : option (list json);
  libraries : option (obj string);
  solcInputHash : option string }.

(** A value of [settings.libraries]: the address of a library, as the
    compiler metadata lists them, or the libraries linked into a contract,
    as the compiler input nests them. *)
Inductive linkage : Type :=
| Address (a : string)
| Linked (libs : obj string).

(** [!!v] for a value of [settings.libraries] that may be missing. *)
Definition truthy_linkage (v : option linkage) : bool :=
  match v with
  | Some (Address a) => negb (a =? "")
  | Some (Linked _) => true
  | None => false
  end.

(** Compiler settings.  [compilationTarget] maps a file path to a contract
    name and [settings_libraries] is [settings.libraries]; the other keys
    are never looked at. *)
Record Settings : Type := mkSettings {
  compilationTarget : option (obj string);
  settings_libraries : option (obj linkage);
  settings_other : obj json }.

(** An entry of a [sources] mapping: its [content] and whatever else the
    compiler recorded next to it (hash, urls, license). *)
Record SourceEntry : Type := mkSourceEntry {
  content : string;
  source_other : obj json }.

(** The parsed metadata of a deployment. *)
Record Metadata : Type := mkMetadata {
  metadata_language : string;
  metadata_compiler_version : string;
  metadata_settings : option Settings;
  metadata_sources : obj SourceEntry }.

(** The compiler input sent as [sourceCode]. *)
Record SolcInput : Type := mkSolcInput {
  language : string;
  settings : option Settings;
  sources : obj SourceEntry }.

(** The body of a response of the explorer. *)
Record ApiData : Type := mkApiData {
  status : option string;
  result : option string;
  message : option string }.

(** The form posted to the explorer (lines 295-308). *)
Record PostData : Type := mkPostData {
  apikey : option string;
  module : string;
  action : string;
  contractaddress : string;
  sourceCode : string;
  codeformat : string;
  contractname : string;
  compilerversion : string;
  constructorArguements : option string;
  licenseType : option Z }.

(** The optional [config] argument of [submitSources]. *)
Record Config : Type := mkConfig {
  etherscanApiKey : option string;
  license : option string;
  fallbackOnSolcInput : bool;
  forceLicense : bool }.

(** ** What the file imports *)

Record Env : Type := mkEnv {
  (** [matchAll(source, regex).toArray()] for the SPDX expression *)
  matchAllSPDX : string -> list string;
  (** [JSON.parse]; [None] when it throws *)
  JSON_parse : string -> option json;
  (** [JSON.parse] of a metadata string, read at the shape [Metadata] *)
  JSON_parse_metadata : string -> option Metadata;
  (** [JSON.parse] of a saved compiler input *)
  JSON_parse_input : string -> option SolcInput;
  (** [JSON.stringify] of the compiler input *)
  JSON_stringify : SolcInput -> string;
  (** [defaultAbiCoder.encode]; [None] when it throws *)
  abi_encode : list ParamType -> list json -> option string;
  (** [fs.readFileSync(path.join(dir, file)).toString()]; [None] when it
      throws *)
  readFileSync : string -> string -> option string;
  (** the answers of the explorer, by the clock of the request; [None] when
      the request fails *)
  answer_getabi : nat -> string -> option ApiData;
  answer_verify : nat -> PostData -> option ApiData;
  answer_status : nat -> string -> option ApiData }.

(** ** Observable events *)

(** [log], [logError], [logInfo], [logSuccess] and the bare [console.log]. *)
Inductive level : Type := Plain | Error | Info | Success.

(** What is logged, one constructor per call site. *)
Inductive logged : Type :=
| UnsupportedNetwork (chainId : string)                         (* line 143 *)
| Exception                                                     (* line 158 *)
| AlreadyVerified (name address : string)                       (* line 163 *)
| NoMetadata (name : string)                                    (* line 168 *)
| NoCompilationTarget (name : string)                           (* line 184 *)
| NoLicense (name contractNamePath : string)                    (* line 199 *)
| LicenseMismatch (name : string) (requested found : option string)
                                                                (* line 206 *)
| SourceLicenseUnsupported (license : option string)
    (name contractNamePath : string)                            (* line 213 *)
| LicenseUnsupported (license : option string)                  (* line 223 *)
| NoSolcInput (name : string)                                   (* line 242 *)
| Verifying (name address : string)                             (* line 279 *)
| NoArgs                                                        (* line 292 *)
| Response (data : ApiData)                                     (* line 322 *)
| SubmitFailed (name : string) (msg : option string) (data : ApiData)
                                                                (* line 323 *)
| NoGuid (name : string)                                        (* line 330 *)
| VerifyFailed (name : string) (msg res : option string)        (* line 353 *)
| Payload (data : PostData)                                     (* line 357 *)
| Waiting                                                       (* line 380 *)
| Verified (name : string)                                      (* line 388 *)
| FallingBack                                                   (* line 393 *)
| Guidance.                                                     (* line 398 *)

Inductive event : Type :=
| Log (l : level) (m : logged)
| GetAbi (host address : string) (key : option string)
| Post (host : string) (data : PostData)
| CheckVerifyStatus (host : string) (key : option string) (guid : string)
| ReadFile (dir file : string)
| Sleep (ms : Z).

(** ** Computations *)

Inductive stop : Type :=
| Returned    (* a [return] out of [submit] *)
| Rejected    (* an exception: the promise is rejected *)
| Exhausted.  (* the budget of the model ran out *)

Inductive res (A : Type) : Type :=
| Val (a : A)
| Halt (s : stop).
Arguments Val {A} a.
Arguments Halt {A} s.

Record run (A : Type) : Type := mkRun {
  value : res A;
  trace : list event;
  clock : nat }.
Arguments mkRun {A} value trace clock.
Arguments value {A} r.
Arguments trace {A} r.
Arguments clock {A} r.

Definition M (A : Type) : Type := nat -> run A.

Definition ret {A : Type} (a : A) : M A :=
  fun t => mkRun (Val a) [] t.

Definition bind {A B : Type} (m : M A) (k : A -> M B) : M B :=
  fun t =>
    let r := m t in
    match value r with
    | Val a =>
        let r' := k a (clock r) in
        mkRun (value r') (trace r ++ trace r') (clock r')
    | Halt s => mkRun (Halt s) (trace r) (clock r)
    end.

Declare Scope comp_scope.
Delimit Scope comp_scope with comp.
Notation "x <- m ;; k" := (bind m (fun x => k))
  (at level 61, m at next level, right associativity) : comp_scope.
Notation "m ;; k" := (bind m (fun _ => k))
  (at level 61, right associativity) : comp_scope.
Local Open Scope comp_scope.

Definition halt {A : Type} (s : stop) : M A :=
  fun t => mkRun (Halt s) [] t.

Definition emit (e : event) : M unit :=
  fun t => mkRun (Val tt) [e] t.

(** A logging call followed by [return]. *)
Definition abort {A : Type} (l : level) (m : logged) : M A :=
  emit (Log l m) ;; halt Returned.

(** A value that may be missing where the source dereferences it. *)
Definition defined {A : Type} (o : option A) : M A :=
  match o with
  | Some a => ret a
  | None => halt Rejected
  end.

(** One HTTP exchange: the request is recorded, the clock advances, and a
    failed request rejects. *)
Definition exchange (e : event) (answer : nat -> option ApiData) : M ApiData :=
  fun t =>
    match answer t with
    | Some d => mkRun (Val d) [e] (S t)
    | None => mkRun (Halt Rejected) [e] (S t)
    end.

(** The boundary of a call of [submit]: a [return] inside it ends the call,
    not the caller. *)
Definition call (m : M unit) : M unit :=
  fun t =>
    let r := m t in
    match value r with
    | Halt Returned => mkRun (Val tt) (trace r) (clock r)
    | _ => r
    end.

(** [`${s}`] and [s + '...'] for a string that may be [undefined]. *)
Definition js_string (o : option string) : string :=
  match o with
  | Some s => s
  | None => "undefined"
  end.

(** [s.slice(n)] *)
Definition slice (n : nat) (s : string) : string :=
  substring n (String.length s - n) s.

(** ** The pure steps of [submit] *)

Definition extractLicenseFromSources (env : Env) (source : string) :
  list string :=
  collectLicenses [] [] (matchAllSPDX env source).

Definition extractOneLicenseFromSourceFile (env : Env) (source : string) :
  option string :=
  hd_error (extractLicenseFromSources env source).

(** Lines 174-181: [contractFilepath] and [contractName]. *)
Definition compilationTargetOf (md : Metadata) : option string * option string :=
  let target :=
    match metadata_settings md with
    | Some s => compilationTarget s
    | None => None
    end in
  match target with
  | Some t =>
      let contractFilepath := hd_error (keys t) in
      (contractFilepath, obj_get (js_string contractFilepath) t)
  | None => (None, None)
  end.

(** Line 191, [metadata.sources[contractFilepath].content]: [None] when the
    read throws.  The sources are an object [JSON.parse] built, so a path
    that is no key of theirs still reads a property when it names one that
    every object inherits (a function, or the prototype itself), and the
    [content] of that is [undefined]. *)
Definition sourceFileOf (contractFilepath : string) (md : Metadata) :
  option (option string) :=
  match obj_get contractFilepath (metadata_sources md) with
  | Some source => Some (Some (content source))
  | None => if inherited contractFilepath then Some None else None
  end.

(** Lines 249-262: the compiler input rebuilt from the metadata. *)
Definition emptySettings : Settings := mkSettings None None [].

(** Lines 256-262.  The entries are written into a fresh object literal,
    where the name [__proto__] is the accessor of [Object.prototype]: the
    write of line 259 then replaces the prototype of the object and creates
    no property, so a source of that name is not part of the input. *)
Definition copySources (srcs : obj SourceEntry) : obj SourceEntry :=
  fold_left
    (fun acc kv =>
       if fst kv =? "__proto__" then acc
       else obj_set (fst kv) (mkSourceEntry (content (snd kv)) []) acc)
    srcs [].

Definition metadataInput (md : Metadata) : SolcInput :=
  let copied :=
    match metadata_settings md with
    | Some s => s
    | None => emptySettings
    end in
  let without_target :=
    mkSettings None (settings_libraries copied) (settings_other copied) in
  mkSolcInput (metadata_language md) (Some without_target)
              (copySources (metadata_sources md)).

(** Line 273, the write of an address into the object of the contract: the
    name [__proto__], unless it is a property of the object already (as
    [JSON.parse] can make it), goes to the setter of [Object.prototype],
    which ignores a string. *)
Definition linkLibrary (libraryName address : string) (linked : obj string) :
  obj string :=
  if (libraryName =? "__proto__")
     && negb (existsb (String.eqb libraryName) (keys linked))
  then linked
  else obj_set libraryName address linked.

(** Lines 270-274, one round of the loop: the slot of the contract is
    created when nothing truthy is there, and the library is written into
    it.  The module is in strict mode, so the write throws when the slot
    holds a string, but for the name [__proto__], which the setter of the
    prototype takes without a complaint.  [contractNamePath] holds a colon
    (line 189), so that it never names an inherited property. *)
Definition addLibrary (contractNamePath : string) (libs : obj linkage)
           (entry : string * string) : option (obj linkage) :=
  let libs :=
    if negb (truthy_linkage (obj_get contractNamePath libs))
    then obj_set contractNamePath (Linked []) libs
    else libs in
  match obj_get contractNamePath libs with
  | Some (Linked linked) =>
      Some (obj_set contractNamePath
                    (Linked (linkLibrary (fst entry) (snd entry) linked)) libs)
  | Some (Address _) =>
      if fst entry =? "__proto__" then Some libs else None
  | None => None
  end.

(** Lines 269-275: the loop over the libraries of the deployment. *)
Fixpoint addEach (contractNamePath : string) (declared : obj string)
         (libs : obj linkage) : option (obj linkage) :=
  match declared with
  | [] => Some libs
  | entry :: rest =>
      match addLibrary contractNamePath libs entry with
      | Some libs' => addEach contractNamePath rest libs'
      | None => None
      end
  end.

(** Lines 267-275; [None] when a write throws. *)
Definition mergeLibraries (contractNamePath : string) (declared : obj string)
           (s : Settings) : option Settings :=
  let libs :=
    match settings_libraries s with
    | Some l => l
    | None => []
    end in
  match addEach contractNamePath declared libs with
  | Some libs' =>
      Some (mkSettings (compilationTarget s) (Some libs') (settings_other s))
  | None => None
  end.

(** Lines 358-370: the payload as it is logged after a failed check. *)
Definition redactedPayload (address contractNamePath version : string)
           (constructorArguements : option string) (licenseType : option Z) :
  PostData :=
  mkPostData (Some "XXXXXX") "contract" "verifysourcecode" address "..."
             "solidity-standard-json-input" contractNamePath
             ("v" ++ version)%string constructorArguements licenseType.

(** Lines 114-144: the explorer of a chain. *)
Definition explorerHost (chainId : string) : option string :=
  if chainId =? "1" then Some "http://api.etherscan.io"
  else if chainId =? "3" then Some "http://api-ropsten.etherscan.io"
  else if chainId =? "4" then Some "http://api-rinkeby.etherscan.io"
  else if chainId =? "5" then Some "http://api-goerli.etherscan.io"
  else if chainId =? "42" then Some "http://api-kovan.etherscan.io"
  else if chainId =? "97" then Some "https://api-testnet.bscscan.com"
  else if chainId =? "56" then Some "https://api.bscscan.com"
  else if chainId =? "128" then Some "https://api.hecoinfo.com"
  else if chainId =? "256" then Some "https://api-testnet.hecoinfo.com"
  else None.

(** What lines 147-277 of [submit] leave in scope for the rest of it. *)
Record Prepared : Type := mkPrepared {
  the_deployment : Deployment;
  the_metadata : Metadata;
  the_contractNamePath : string;
  the_licenseType : option Z;
  the_solcInput : SolcInput }.

(** ** [submit] and its closure *)

Section Submit.
Variable env : Env.
Variable solcInputsPath : string.
Variable fallbackOnSolcInput : bool.
Variable licenseOption : option string.
Variable forceLicense : bool.
Variable etherscanApiKey : option string.
Variable all : obj Deployment.
Variable host : string.
(** how many status checks the model follows for one job *)
Variable budget : nat.

(** Lines 149-165: is the contract verified already? *)
Definition checkExisting (name : string) (deployment : Deployment) : M unit :=
  abiData <- exchange (GetAbi host (address deployment) etherscanApiKey)
                      (fun t => answer_getabi env t (address deployment)) ;;
  contractABI <-
    (if negb (str_eq (status abiData) (Some "0")) then
       match JSON_parse env (js_string (result abiData)) with
       | Some v => ret (Some v)
       | None => abort Error Exception
       end
     else ret None) ;;
  match contractABI with
  | Some v =>
      if truthy v && negb (is_string "" v)
      then abort Plain (AlreadyVerified name (address deployment))
      else ret tt
  | None => ret tt
  end.

(** Lines 167-173. *)
Definition readMetadata (name : string) (deployment : Deployment) :
  M Metadata :=
  if negb (truthy_str (metadata deployment))
  then abort Error (NoMetadata name)
  else defined (JSON_parse_metadata env (js_string (metadata deployment))).

(** Lines 176-187. *)
Definition readTarget (name : string) (md : Metadata) : M (string * string) :=
  match compilationTargetOf md with
  | (Some contractFilepath, Some contractName) =>
      if (contractFilepath =? "") || (contractName =? "")
      then abort Error (NoCompilationTarget name)
      else ret (contractFilepath, contractName)
  | _ => abort Error (NoCompilationTarget name)
  end.

(** Lines 196-226: the license sent and its explorer code. *)
Definition resolveLicense (name contractNamePath : string)
           (sourceLicenseType : option string) : M (option string * option Z) :=
  lic <-
    (if negb (truthy_str sourceLicenseType) then
       if negb (truthy_str licenseOption)
       then abort Error (NoLicense name contractNamePath)
       else ret licenseOption
     else
       if truthy_str licenseOption
          && negb (str_eq licenseOption sourceLicenseType)
       then
         if negb forceLicense
         then abort Error
                    (LicenseMismatch name licenseOption sourceLicenseType)
         else ret licenseOption
       else
         if negb (truthy_num (getLicenseType sourceLicenseType))
         then abort Error
                    (SourceLicenseUnsupported sourceLicenseType name
                                              contractNamePath)
         else ret sourceLicenseType) ;;
  if negb (truthy_num (getLicenseType lic))
  then abort Error (LicenseUnsupported lic)
  else ret (lic, getLicenseType lic).

(** Lines 233-263. *)
Definition buildInput (name : string) (deployment : Deployment)
           (md : Metadata) (useSolcInput : bool) : M SolcInput :=
  if useSolcInput then
    let file := (js_string (solcInputHash deployment) ++ ".json")%string in
    emit (ReadFile solcInputsPath file) ;;
    let solcInputStringFromDeployment := readFileSync env solcInputsPath file in
    if negb (truthy_str solcInputStringFromDeployment)
    then abort Error (NoSolcInput name)
    else defined (JSON_parse_input env
                    (js_string solcInputStringFromDeployment))
  else ret (metadataInput md).

(** Lines 266-276. *)
Definition addLibraries (contractNamePath : string) (deployment : Deployment)
           (solcInput : SolcInput) : M SolcInput :=
  match libraries deployment with
  | Some declared =>
      s <- defined (settings solcInput) ;;
      merged <- defined (mergeLibraries contractNamePath declared s) ;;
      ret (mkSolcInput (language solcInput) (Some merged)
                       (sources solcInput))
  | None => ret solcInput
  end.

(** Lines 281-293. *)
Definition encodeArguments (deployment : Deployment) : M (option string) :=
  match args deployment with
  | Some a =>
      match find (fun v => abi_type v =? "constructor") (abi deployment) with
      | Some constructor =>
          encoded <- defined (abi_encode env (abi_inputs constructor) a) ;;
          ret (Some (slice 2 encoded))
      | None => ret None
      end
  | None => emit (Log Info NoArgs) ;; ret None
  end.

(** Lines 295-308. *)
Definition payload (deployment : Deployment) (md : Metadata)
           (contractNamePath solcInputString : string)
           (constructorArguements : option string) (licenseType : option Z) :
  PostData :=
  mkPostData etherscanApiKey "contract" "verifysourcecode"
             (address deployment) solcInputString
             "solidity-standard-json-input" contractNamePath
             ("v" ++ metadata_compiler_version md)%string
             constructorArguements licenseType.

(** Lines 310-332: the submission and the [guid] it returns. *)
Definition postSources (name : string) (postData : PostData) : M string :=
  submissionData <- exchange (Post host postData)
                             (fun t => answer_verify env t postData) ;;
  guid <-
    (if str_eq (status submissionData) (Some "1")
     then ret (result submissionData)
     else
       emit (Log Plain (Response submissionData)) ;;
       abort Error (SubmitFailed name (message submissionData)
                                 submissionData)) ;;
  if negb (truthy_str guid)
  then abort Error (NoGuid name)
  else ret (js_string guid).

(** Lines 334-378. *)
Definition checkStatus (name guid : string) (deployment : Deployment)
           (md : Metadata) (contractNamePath : string)
           (constructorArguements : option string) (licenseType : option Z) :
  M (option string) :=
  statusData <- exchange (CheckVerifyStatus host etherscanApiKey guid)
                         (fun t => answer_status env t guid) ;;
  if str_eq (status statusData) (Some "1") then ret (Some "success")
  else if str_eq (result statusData) (Some "Pending in queue") then ret None
  else
    emit (Log Error (VerifyFailed name (message statusData)
                                  (result statusData))) ;;
    emit (Log Error
            (Payload (redactedPayload (address deployment) contractNamePath
                        (metadata_compiler_version md)
                        constructorArguements licenseType))) ;;
    ret (Some "failure").

(** Lines 381-385: [while (!result)], followed for at most [fuel] rounds. *)
Fixpoint waitForResult (fuel : nat) (check : M (option string)) :
  M (option string) :=
  match fuel with
  | O => halt Exhausted
  | S fuel' =>
      emit (Sleep 10000) ;;
      result <- check ;;
      if truthy_str result then ret result else waitForResult fuel' check
  end.

(** Lines 147-277: everything [submit] settles before it announces the
    verification.  A source file that reads [undefined] reaches the regular
    expression of line 36 as the text "undefined". *)
Definition prepare (name : string) (useSolcInput : bool) : M Prepared :=
  deployment <- defined (obj_get name all) ;;
  checkExisting name deployment ;;
  md <- readMetadata name deployment ;;
  target <- readTarget name md ;;
  let contractFilepath := fst target in
  let contractName := snd target in
  let contractNamePath := (contractFilepath ++ ":" ++ contractName)%string in
  contractSourceFile <- defined (sourceFileOf contractFilepath md) ;;
  let sourceLicenseType :=
    extractOneLicenseFromSourceFile env (js_string contractSourceFile) in
  resolved <- resolveLicense name contractNamePath sourceLicenseType ;;
  let licenseType := snd resolved in
  solcInput <- buildInput name deployment md useSolcInput ;;
  solcInput <- addLibraries contractNamePath deployment solcInput ;;
  ret (mkPrepared deployment md contractNamePath licenseType solcInput).

(** Lines 277-385: the submission and the wait for its result. *)
Definition verify (name : string) (useSolcInput : bool) : M (option string) :=
  p <- prepare name useSolcInput ;;
  let deployment := the_deployment p in
  let md := the_metadata p in
  let contractNamePath := the_contractNamePath p in
  let licenseType := the_licenseType p in
  let solcInputString := JSON_stringify env (the_solcInput p) in
  emit (Log Info (Verifying name (address deployment))) ;;
  constructorArguements <- encodeArguments deployment ;;
  let postData :=
    payload deployment md contractNamePath solcInputString
            constructorArguements licenseType in
  guid <- postSources name postData ;;
  emit (Log Info Waiting) ;;
  waitForResult budget
    (checkStatus name guid deployment md contractNamePath
                 constructorArguements licenseType).

(** Lines 387-402: what [submit] does with the result; [self] is [submit]
    itself, for the call of line 396. *)
Definition conclude (self : string -> bool -> M unit) (name : string)
           (useSolcInput : bool) (result : option string) : M unit :=
  (if str_eq result (Some "success")
   then emit (Log Success (Verified name))
   else ret tt) ;;
  if str_eq result (Some "failure") then
    if negb useSolcInput && fallbackOnSolcInput
    then emit (Log Info FallingBack) ;; self name true
    else emit (Log Info Guidance)
  else ret tt.

(** The body of [submit]. *)
Definition submitBody (self : string -> bool -> M unit) (name : string)
           (useSolcInput : bool) : M unit :=
  result <- verify name useSolcInput ;;
  conclude self name useSolcInput result.

(** [submit], unfolded to a nesting depth of [depth] calls. *)
Fixpoint submit (depth : nat) (name : string) (useSolcInput : bool) :
  M unit :=
  match depth with
  | O => halt Exhausted
  | S depth' => call (submitBody (submit depth') name useSolcInput)
  end.

(** Lines 405-407. *)
Fixpoint forEach (names : list string) (body : string -> M unit) : M unit :=
  match names with
  | [] => ret tt
  | name :: rest => body name ;; forEach rest body
  end.
End Submit.

(** [submitSources]: [chainId] and [all] are what [hre] answers, and two
    nested calls of [submit] are as deep as line 396 can go. *)
Definition defaultConfig : Config := mkConfig None None false false.

Definition submitSources (env : Env) (chainId : string) (all : obj Deployment)
           (solcInputsPath : string) (config : option Config) (budget : nat) :
  M unit :=
  let config :=
    match config with
    | Some c => c
    | None => defaultConfig
    end in
  match explorerHost chainId with
  | Some host =>
      forEach (keys all)
              (fun name =>
                 submit env solcInputsPath (fallbackOnSolcInput config)
                        (license config) (forceLicense config)
                        (etherscanApiKey config) all host budget 2 name false)
  | None => call (abort Error (UnsupportedNetwork chainId))
  end.

(** ** A small deployment, for concrete runs *)

Module Demo.
Definition fooSource : string :=
  "// SPDX-License-Identifier: MIT contract Foo {}".

Definition fooMetadata : Metadata :=
  mkMetadata "Solidity" "0.7.6"
    (Some (mkSettings (Some [("A.sol", "Foo")]) None
                      [("optimizer", JObj [("enabled", JBool true)])]))
    [("A.sol", mkSourceEntry fooSource [("keccak256", JStr "0x12")]);
     ("B.sol", mkSourceEntry "contract Bar {}" [("urls", JArr [])])].

(** The same metadata with a second compilation target. *)
Definition twoTargets : Metadata :=
  mkMetadata "Solidity" "0.7.6"
    (Some (mkSettings (Some [("A.sol", "Foo"); ("B.sol", "Bar")]) None []))
    (metadata_sources fooMetadata).

(** The same metadata without a compilation target. *)
Definition noTarget : Metadata :=
  mkMetadata "Solidity" "0.7.6" (Some (mkSettings None None []))
             (metadata_sources fooMetadata).

Definition foo : Deployment :=
  mkDeployment "0xF00" (Some "foo") [mkAbiEntry "function" []]
               (Some [JNum 7]) (Some [("L1", "0xaaa")]) (Some "1234").

Definition bar : Deployment :=
  mkDeployment "0xBA2" (Some "two") [] None None None.

Definition baz : Deployment :=
  mkDeployment "0xBA3" (Some "none") [] None None None.

Definition all : obj Deployment := [("Foo", foo); ("Bar", bar); ("Baz", baz)].

(** An explorer that knows none of the contracts, accepts every submission
    and answers the status checks with [statuses]. *)
Definition env (abis : string -> option ApiData)
           (statuses : nat -> option ApiData) : Env :=
  mkEnv
    (fun source =>
       if prefix "// SPDX-License-Identifier: MIT " source then ["MIT"] else [])
    (fun text => if text =? "[]" then Some (JArr []) else None)
    (fun text =>
       if text =? "foo" then Some fooMetadata
       else if text =? "two" then Some twoTargets
       else if text =? "none" then Some noTarget
       else None)
    (fun text =>
       if text =? "input" then Some (metadataInput fooMetadata) else None)
    (fun input => language input)
    (fun _ _ => Some "0x0007")
    (fun dir file =>
       if (dir =? "inputs") && (file =? "1234.json") then Some "input"
       else None)
    (fun _ address => abis address)
    (fun _ _ => Some (mkApiData (Some "1") (Some "abc123") (Some "OK")))
    (fun t _ => statuses t).

Definition unverified (address : string) : option ApiData :=
  Some (mkApiData (Some "0") (Some "Contract source code not verified")
                  (Some "NOTOK")).

Definition pending : ApiData :=
  mkApiData (Some "0") (Some "Pending in queue") (Some "NOTOK").
Definition pass : ApiData :=
  mkApiData (Some "1") (Some "Pass - Verified") (Some "OK").
Definition fail : ApiData :=
  mkApiData (Some "0") (Some "Fail - Unable to verify") (Some "NOTOK").

(** Two pending answers, then success. *)
Definition passes (t : nat) : option ApiData :=
  Some (if (t <? 4)%nat then pending else pass).

(** Every check fails. *)
Definition fails (t : nat) : option ApiData := Some fail.
End Demo.

(** ** More deployments, for concrete runs *)

Module Cases.
(** Metadata whose compilation target is a file its sources do not hold. *)
Definition strayTarget : Metadata :=
  mkMetadata "Solidity" "0.8.4"
    (Some (mkSettings (Some [("C.sol", "Qux")]) None []))
    [("A.sol", mkSourceEntry Demo.fooSource [])].

(** Metadata of a contract with a constructor and no license comment. *)
Definition plain : Metadata :=
  mkMetadata "Solidity" "0.8.4"
    (Some (mkSettings (Some [("P.sol", "Plain")]) None []))
    [("P.sol", mkSourceEntry "contract Plain {}" [])].

(** Metadata with a source that goes by the name [__proto__]. *)
Definition protoSource : Metadata :=
  mkMetadata "Solidity" "0.8.4"
    (Some (mkSettings (Some [("A.sol", "Foo")]) None []))
    [("A.sol", mkSourceEntry Demo.fooSource [("keccak256", JStr "0x12")]);
     ("__proto__", mkSourceEntry "contract Proto {}" [])].

Definition bare : Deployment :=
  mkDeployment "0xBA4" None [] None None None.
Definition garbled : Deployment :=
  mkDeployment "0xBA5" (Some "{oops") [] None None None.
Definition stray : Deployment :=
  mkDeployment "0xBA6" (Some "stray") [] None None None.
Definition built : Deployment :=
  mkDeployment "0xBA7" (Some "plain")
               [mkAbiEntry "function" [];
                mkAbiEntry "constructor" [mkParamType "owner" "address"]]
               (Some [JStr "0x01"]) None (Some "abcd").

Definition all : obj Deployment :=
  [("Bare", bare); ("Garbled", garbled); ("Stray", stray); ("Built", built);
   ("Foo", Demo.foo)].

(** An explorer and a file system given by their answers. *)
Definition env (abis : string -> option ApiData)
           (submissions : nat -> option ApiData)
           (statuses : nat -> option ApiData)
           (files : string -> option string) : Env :=
  mkEnv
    (fun source =>
       if prefix "// SPDX-License-Identifier: MIT " source then ["MIT"] else [])
    (fun text => if text =? "[]" then Some (JArr [])
                 else if text =? "null" then Some JNull
                 else None)
    (fun text =>
       if text =? "foo" then Some Demo.fooMetadata
       else if text =? "stray" then Some strayTarget
       else if text =? "plain" then Some plain
       else None)
    (fun text =>
       if text =? "input" then Some (metadataInput Demo.fooMetadata) else None)
    (fun input => language input)
    (fun inputs _ => match inputs with
                     | [] => None
                     | _ => Some "0x00ff"
                     end)
    (fun dir file => if dir =? "inputs" then files file else None)
    (fun _ address => abis address)
    (fun t _ => submissions t)
    (fun t _ => statuses t).

Definition accepted (t : nat) : option ApiData :=
  Some (mkApiData (Some "1") (Some "abc123") (Some "OK")).
Definition refused (t : nat) : option ApiData :=
  Some (mkApiData (Some "0") (Some "Max rate limit reached") (Some "NOTOK")).
Definition verified (address : string) : option ApiData :=
  Some (mkApiData (Some "1") (Some "[]") (Some "OK")).
Definition noFiles (file : string) : option string := None.
End Cases.

(** ** The vocabulary of the properties *)

(** [sat P Q m]: whatever the clock, every event [m] leaves satisfies [P]
    and the value it yields, if any, satisfies [Q]. *)
Definition sat {A : Type} (P : event -> Prop) (Q : A -> Prop) (m : M A) : Prop :=
  forall t, Forall P (trace (m t)) /\ forall a, value (m t) = Val a -> Q a.

(** An event that is not the submission of sources. *)
Definition quiet (e : event) : Prop :=
  match e with
  | Post _ _ => False
  | _ => True
  end.

(** The chain ids of the switch of lines 114-144. *)
Definition supportedChains : list string :=
  ["1"; "3"; "4"; "5"; "42"; "56"; "97"; "128"; "256"].

(** A payload with its key masked and its source elided. *)
Definition redact (data : PostData) : PostData :=
  mkPostData (Some "XXXXXX") (module data) (action data)
             (contractaddress data) "..." (codeformat data)
             (contractname data) (compilerversion data)
             (constructorArguements data) (licenseType data).

(** The license option disagrees with the license found in the source
    (line 204). *)
Definition mismatch (licenseOption sourceLicenseType : option string) : bool :=
  truthy_str licenseOption && negb (str_eq licenseOption sourceLicenseType).

(** What [resolveLicense] promises of the pair it yields. *)
Definition resolved (licenseOption : option string) (forceLicense : bool)
           (sourceLicenseType : option string)
           (r : option string * option Z) : Prop :=
  snd r = getLicenseType (fst r) /\
  (exists n, snd r = Some n /\ (1 <= n <= 13)%Z) /\
  (fst r = licenseOption /\
   (truthy_str sourceLicenseType = false \/
    mismatch licenseOption sourceLicenseType = true /\ forceLicense = true)
   \/
   fst r = sourceLicenseType /\ truthy_str sourceLicenseType = true /\
   mismatch licenseOption sourceLicenseType = false).

(** The constructor entry of an ABI (line 283). *)
Definition constructorOf (d : Deployment) : option AbiEntry :=
  find (fun v => abi_type v =? "constructor") (abi d).

(** The license [extractOneLicenseFromSourceFile] finds in what line 191
    reads as the source file of the contract deployed as [name]. *)
Definition sourceLicenseIs (env : Env) (all : obj Deployment) (name : string)
           (found : option string) : Prop :=
  forall d md fp cn contractSourceFile,
    obj_get name all = Some d ->
    JSON_parse_metadata env (js_string (metadata d)) = Some md ->
    compilationTargetOf md = (Some fp, Some cn) ->
    sourceFileOf fp md = Some contractSourceFile ->
    extractOneLicenseFromSourceFile env (js_string contractSourceFile) =
    found.

(** An event that is not a submission, or one whose [licenseType] is the
    code of a license of the table. *)
Definition licensed (e : event) : Prop :=
  match e with
  | Post _ data =>
      exists l n,
        licenseType data = getLicenseType (Some l) /\
        licenseType data = Some n /\ (1 <= n <= 13)%Z
  | _ => True
  end.

(** The metadata names no compilation target: the mapping is missing or has
    no entry. *)
Definition targetAbsent (md : Metadata) : Prop :=
  match metadata_settings md with
  | Some s =>
      match compilationTarget s with
      | Some (_ :: _) => False
      | _ => True
      end
  | None => True
  end.

(** What [submit] logs of a result when it does not call itself. *)
Definition report (name : string) (result : option string) : M unit :=
  (if str_eq result (Some "success")
   then emit (Log Success (Verified name))
   else ret tt) ;;
  if str_eq result (Some "failure")
  then emit (Log Info Guidance)
  else ret tt.

(** One pass of the pipeline and the log line of its result. *)
Definition once (env : Env) (solcInputsPath : string)
           (licenseOption : option string) (forceLicense : bool)
           (etherscanApiKey : option string) (all : obj Deployment)
           (host : string) (budget : nat) (name : string)
           (useSolcInput : bool) : M unit :=
  call (result <- verify env solcInputsPath licenseOption forceLicense
                         etherscanApiKey all host budget name useSolcInput ;;
        report name result).

(** An entry under a name other than [__proto__]. *)
Definition notProto {V : Type} (kv : string * V) : bool :=
  negb (fst kv =? "__proto__").






(** The libraries linked under [settings.libraries[contractNamePath]], none
    when line 271 has to create the slot. *)
Definition linkedOf (contractNamePath : string) (libs : obj linkage) :
  obj string :=
  match obj_get contractNamePath libs with
  | Some (Linked o) => o
  | _ => []
  end.



(** The license names of [getLicenseType], in the order of their codes. *)
Definition supportedLicenses : list string :=
  ["None"; "UNLICENSED"; "MIT"; "GPL-2.0"; "GPL-3.0"; "LGPL-2.1"; "LGPL-3.0";
   "BSD-2-Clause"; "BSD-3-Clause"; "MPL-2.0"; "OSL-3.0"; "Apache-2.0";
   "AGPL-3.0"].

(** What the caller of [submit] sees of a stop inside it. *)
Definition seen (s : stop) : res unit :=
  match s with
  | Returned => Val tt
  | _ => Halt s
  end.

(** The license whose code is sent, when one is sent: that of the source,
    unless the source has none or --force-license backs a different
    --license. *)
Definition effectiveLicense (licenseOption : option string)
           (forceLicense : bool) (sourceLicenseType : option string) :
  option string :=
  if truthy_str sourceLicenseType then
    if mismatch licenseOption sourceLicenseType && forceLicense
    then licenseOption
    else sourceLicenseType
  else licenseOption.

(** An answer to a status check that leaves the job in the queue. *)
Definition isPending (answer : ApiData) : Prop :=
  status answer <> Some "1" /\ result answer = Some "Pending in queue".

(** [m'] runs as [m] does wherever [m] does not run out of budget. *)
Definition agrees {A : Type} (m' m : M A) : Prop :=
  forall t, value (m t) <> Halt Exhausted -> m' t = m t.

(** What a call of [submit] for the deployment [d] of [name] may leave in
    its trace; [full] tells whether the full compiler input may be read. *)
Definition emits (etherscanApiKey : option string)
           (host solcInputsPath : string) (full : bool) (d : Deployment)
           (e : event) : Prop :=
  match e with
  | GetAbi h a k => h = host /\ a = address d /\ k = etherscanApiKey
  | Post h data =>
      h = host /\ apikey data = etherscanApiKey /\
      contractaddress data = address d /\ module data = "contract" /\
      action data = "verifysourcecode" /\
      codeformat data = "solidity-standard-json-input"
  | CheckVerifyStatus h k guid =>
      h = host /\ k = etherscanApiKey /\ guid <> ""
  | ReadFile dir file =>
      full = true /\ dir = solcInputsPath /\
      file = (js_string (solcInputHash d) ++ ".json")%string
  | Sleep ms => ms = 10000%Z
  | Log l (Payload data) =>
      l = Error /\ apikey data = Some "XXXXXX" /\ sourceCode data = "..." /\
      contractaddress data = address d
  | Log _ (UnsupportedNetwork _) => False
  | Log _ _ => True
  end.

(** The same, of the deployment that goes by [name]. *)
Definition emitsFor (etherscanApiKey : option string)
           (host solcInputsPath : string) (full : bool)
           (all : obj Deployment) (name : string) (e : event) : Prop :=
  exists d, obj_get name all = Some d /\
            emits etherscanApiKey host solcInputsPath full d e.

(** * Properties *)

(** ** Objects *)

Section ObjFacts.
Context {V : Type}.
Implicit Types (o : list (string * V)) (k : string) (v : V).

Ltac by_key k1 k2 :=
  destruct (String.eqb_spec k1 k2); subst; simpl; try congruence.

Lemma obj_get_set_same k v o : obj_get k (obj_set k v o) = Some v.
Proof.
  induction o as [| [k' v'] o IH]; simpl.
  - now rewrite String.eqb_refl.
  - by_key k' k.
    + now rewrite String.eqb_refl.
    + destruct (String.eqb_spec k' k); congruence.
Qed.

Lemma obj_get_set_other k k' v o :
  k <> k' -> obj_get k' (obj_set k v o) = obj_get k' o.
Proof.
  intros Hne. induction o as [| [k0 v0] o IH]; simpl.
  - destruct (String.eqb_spec k k'); congruence.
  - by_key k0 k.
    + destruct (String.eqb_spec k k'); congruence.
    + now rewrite IH.
Qed.



Lemma obj_set_absent k v o :
  ~ In k (keys o) -> obj_set k v o = o ++ [(k, v)].
Proof.
  unfold keys. induction o as [| [k0 v0] o IH]; simpl; intros Hn.
  - reflexivity.
  - by_key k0 k.
    + exfalso. apply Hn. now left.
    + rewrite IH; [reflexivity |]. intros Hin. apply Hn. now right.
Qed.



Lemma obj_get_app k o o' :
  obj_get k (o ++ o') =
  match obj_get k o with
  | Some v => Some v
  | None => obj_get k o'
  end.
Proof.
  induction o as [| [k0 v0] o IH]; simpl; [reflexivity |].
  by_key k0 k; try exact IH.
Qed.

End ObjFacts.

(** ** Computations *)

Lemma str_eq_spec (a : option string) (s : string) :
  str_eq a (Some s) = true <-> a = Some s.
Proof.
  destruct a as [x |]; simpl; [| intuition discriminate].
  rewrite String.eqb_eq. intuition congruence.
Qed.

Lemma str_eq_false (a : option string) (s : string) :
  str_eq a (Some s) = false <-> a <> Some s.
Proof.
  rewrite <- str_eq_spec. destruct (str_eq a (Some s)); intuition congruence.
Qed.

Lemma bind_val {A B : Type} (m : M A) (k : A -> M B) (t : nat) (a : A) :
  value (m t) = Val a ->
  bind m k t =
  mkRun (value (k a (clock (m t))))
        (trace (m t) ++ trace (k a (clock (m t))))
        (clock (k a (clock (m t)))).
Proof. intros H. unfold bind. now rewrite H. Qed.

Lemma bind_halt_run {A B : Type} (m : M A) (k : A -> M B) (t : nat)
      (s : stop) (tr : list event) (t' : nat) :
  m t = mkRun (Halt s) tr t' -> bind m k t = mkRun (Halt s) tr t'.
Proof. intros H. unfold bind. now rewrite H. Qed.

Lemma bind_val_run {A B : Type} (m : M A) (k : A -> M B) (t : nat) (a : A)
      (tr : list event) (t' : nat) :
  m t = mkRun (Val a) tr t' ->
  bind m k t =
  mkRun (value (k a t')) (tr ++ trace (k a t')) (clock (k a t')).
Proof. intros H. unfold bind. now rewrite H. Qed.

Lemma bind_ret_l {A B : Type} (a : A) (k : A -> M B) (t : nat) :
  bind (ret a) k t = k a t.
Proof. unfold bind, ret. simpl. now destruct (k a t). Qed.

Section SatRules.
Context {A : Type} (P : event -> Prop).

Lemma sat_ret (Q : A -> Prop) (a : A) : Q a -> sat P Q (ret a).
Proof.
  intros H t. simpl. split; [constructor |]. now intros ? [= <-].
Qed.

Lemma sat_halt (Q : A -> Prop) (s : stop) : sat P Q (halt s).
Proof. intros t. simpl. split; [constructor | discriminate]. Qed.

Lemma sat_abort (Q : A -> Prop) (l : level) (m : logged) :
  P (Log l m) -> sat P Q (abort l m).
Proof.
  intros H t. unfold abort, bind. simpl. split; [| discriminate].
  now repeat constructor.
Qed.

Lemma sat_defined (Q : A -> Prop) (o : option A) :
  (forall a, o = Some a -> Q a) -> sat P Q (defined o).
Proof.
  intros H. destruct o as [a |]; simpl.
  - apply sat_ret. now apply H.
  - apply sat_halt.
Qed.

Lemma sat_weaken (Q Q' : A -> Prop) (m : M A) :
  (forall a, Q a -> Q' a) -> sat P Q m -> sat P Q' m.
Proof.
  intros HQ H t. destruct (H t) as [Ht Hv]. split; [exact Ht |].
  intros a Ha. apply HQ. now apply Hv.
Qed.

Lemma sat_bind {B : Type} (Q : A -> Prop) (R : B -> Prop)
      (m : M A) (k : A -> M B) :
  sat P Q m -> (forall a, Q a -> sat P R (k a)) -> sat P R (bind m k).
Proof.
  intros Hm Hk t. destruct (Hm t) as [Ht Hv]. unfold bind.
  destruct (value (m t)) as [a | s] eqn:E; simpl.
  - destruct (Hk a (Hv a eq_refl) (clock (m t))) as [Ht' Hv'].
    split; [apply Forall_app; now split | exact Hv'].
  - split; [exact Ht | discriminate].
Qed.
End SatRules.

Lemma sat_events {A : Type} (P P' : event -> Prop) (Q : A -> Prop) (m : M A) :
  (forall e, P e -> P' e) -> sat P Q m -> sat P' Q m.
Proof.
  intros HP H t. destruct (H t) as [Ht Hv]. split; [| exact Hv].
  eapply Forall_impl; [exact HP | exact Ht].
Qed.

Lemma sat_emit (P : event -> Prop) (e : event) :
  P e -> sat P (fun _ => True) (emit e).
Proof. intros H t. simpl. split; [now repeat constructor | trivial]. Qed.

Lemma sat_exchange (P : event -> Prop) (e : event)
      (answer : nat -> option ApiData) :
  P e -> sat P (fun _ => True) (exchange e answer).
Proof.
  intros H t. unfold exchange. destruct (answer t); simpl;
    (split; [now repeat constructor | trivial]).
Qed.

Lemma sat_call (P : event -> Prop) (m : M unit) :
  sat P (fun _ => True) m -> sat P (fun _ => True) (call m).
Proof.
  intros H t. destruct (H t) as [Ht _]. unfold call.
  destruct (value (m t)) as [a | []] eqn:E; simpl; rewrite ?E; auto.
Qed.

Lemma call_returns (m : M unit) (t : nat) :
  value (call m t) <> Halt Returned.
Proof.
  unfold call. destruct (value (m t)) as [[] | []] eqn:E; simpl;
    rewrite ?E; discriminate.
Qed.

(** The loop over the deployments goes on after a call that returned. *)
Lemma forEach_next (body : string -> M unit) (name : string)
      (rest : list string) (t : nat) :
  value (body name t) = Val tt ->
  forEach (name :: rest) body t =
  mkRun (value (forEach rest body (clock (body name t))))
        (trace (body name t) ++ trace (forEach rest body (clock (body name t))))
        (clock (forEach rest body (clock (body name t)))).
Proof.
  intros H. exact (bind_val (body name) (fun _ => forEach rest body) t tt H).
Qed.

(** ** The chain table *)

Lemma explorerHost_supported (chainId : string) :
  explorerHost chainId <> None <-> In chainId supportedChains.
Proof.
  unfold explorerHost, supportedChains. simpl.
  repeat match goal with
         | |- context [String.eqb ?a ?b] =>
             destruct (String.eqb_spec a b); [subst; intuition congruence |]
         end.
  intuition congruence.
Qed.

(** C5. Chain id 1 is served by http://api.etherscan.io, and with a chain id
    outside the table of nine the batch comes to nothing but the error
    message: no deployment is looked at and no request is sent. *)
Theorem unsupported_chain_stops_batch (env : Env) (chainId : string)
        (all : obj Deployment) (solcInputsPath : string)
        (config : option Config) (budget t : nat) :
  ~ In chainId supportedChains ->
  explorerHost "1" = Some "http://api.etherscan.io" /\
  length supportedChains = 9 /\
  (forall c, In c supportedChains -> explorerHost c <> None) /\
  explorerHost chainId = None /\
  submitSources env chainId all solcInputsPath config budget t =
  mkRun (Val tt) [Log Error (UnsupportedNetwork chainId)] t.
Proof.
  intros Hout.
  assert (Hnone : explorerHost chainId = None).
  { destruct (explorerHost chainId) eqn:E; [| reflexivity].
    exfalso. apply Hout. apply explorerHost_supported. congruence. }
  repeat split; try reflexivity.
  - intros c Hc. now apply explorerHost_supported.
  - exact Hnone.
  - unfold submitSources. now rewrite Hnone.
Qed.

Lemma unsupported_chain_stops_batch_witness :
  ~ In "999" supportedChains /\
  submitSources (Demo.env Demo.unverified Demo.passes) "999" Demo.all
                "inputs" None 5 0 =
  mkRun (Val tt) [Log Error (UnsupportedNetwork "999")] 0.
Proof.
  assert (H : ~ In "999" supportedChains).
  { simpl. intuition discriminate. }
  split; [exact H |].
  apply (unsupported_chain_stops_batch
           (Demo.env Demo.unverified Demo.passes) "999" Demo.all "inputs"
           None 5 0 H).
Defined.

(** ** The status check *)

Section StatusFacts.
Variable env : Env.
Variable etherscanApiKey : option string.
Variable host : string.
Variables (name guid contractNamePath : string).
Variables (deployment : Deployment) (md : Metadata).
Variables (constructorArguements : option string) (licenseType : option Z).

Let check : M (option string) :=
  checkStatus env etherscanApiKey host name guid deployment md
              contractNamePath constructorArguements licenseType.
Let request : event := CheckVerifyStatus host etherscanApiKey guid.
Let masked : PostData :=
  redactedPayload (address deployment) contractNamePath
                  (metadata_compiler_version md) constructorArguements
                  licenseType.

Lemma waitForResult_step (fuel t : nat) (r : option string) (tr : list event)
      (t' : nat) :
  check t = mkRun (Val r) tr t' ->
  waitForResult (S fuel) check t =
  if truthy_str r then mkRun (Val r) (Sleep 10000 :: tr) t'
  else
    let rest := waitForResult fuel check t' in
    mkRun (value rest) (Sleep 10000 :: tr ++ trace rest) (clock rest).
Proof.
  intros H. cbn [waitForResult]. unfold bind, emit. cbn.
  rewrite H. cbn. destruct (truthy_str r); cbn; [| reflexivity].
  now rewrite app_nil_r.
Qed.

(** C2. A status check answered with status 1 ends the wait with success;
    one answered with the result "Pending in queue" is not an end, and the
    loop sleeps ten seconds and checks again; any other answer ends the
    wait with failure, after logging the message and result of the
    explorer and the payload with its key masked and its source elided. *)
Theorem checkStatus_classifies (t : nat) (answer : ApiData) :
  answer_status env t guid = Some answer ->
  (status answer = Some "1" ->
   check t = mkRun (Val (Some "success")) [request] (S t) /\
   forall fuel,
     waitForResult (S fuel) check t =
     mkRun (Val (Some "success")) [Sleep 10000; request] (S t)) /\
  (status answer <> Some "1" ->
   result answer = Some "Pending in queue" ->
   check t = mkRun (Val None) [request] (S t) /\
   forall fuel,
     waitForResult (S fuel) check t =
     let rest := waitForResult fuel check (S t) in
     mkRun (value rest) (Sleep 10000 :: request :: trace rest)
           (clock rest)) /\
  (status answer <> Some "1" ->
   result answer <> Some "Pending in queue" ->
   let report :=
     [request;
      Log Error (VerifyFailed name (message answer) (result answer));
      Log Error (Payload masked)] in
   check t = mkRun (Val (Some "failure")) report (S t) /\
   forall fuel,
     waitForResult (S fuel) check t =
     mkRun (Val (Some "failure")) (Sleep 10000 :: report) (S t)) /\
  (forall source,
     masked =
     redact (payload etherscanApiKey deployment md contractNamePath source
                     constructorArguements licenseType)).
Proof.
  intros Hanswer.
  assert (Hone : status answer = Some "1" ->
                 check t = mkRun (Val (Some "success")) [request] (S t)).
  { intros H. apply str_eq_spec in H.
    unfold check, checkStatus, bind, exchange. rewrite Hanswer. cbn.
    now rewrite H. }
  assert (Hpending : status answer <> Some "1" ->
                     result answer = Some "Pending in queue" ->
                     check t = mkRun (Val None) [request] (S t)).
  { intros H H0. apply str_eq_false in H. apply str_eq_spec in H0.
    unfold check, checkStatus, bind, exchange. rewrite Hanswer. cbn.
    now rewrite H, H0. }
  assert (Hother : status answer <> Some "1" ->
                   result answer <> Some "Pending in queue" ->
                   check t =
                   mkRun (Val (Some "failure"))
                         [request;
                          Log Error (VerifyFailed name (message answer)
                                                  (result answer));
                          Log Error (Payload masked)] (S t)).
  { intros H H0. apply str_eq_false in H. apply str_eq_false in H0.
    unfold check, checkStatus, bind, exchange. rewrite Hanswer. cbn.
    now rewrite H, H0. }
  split; [| split; [| split]].
  - intros H. split; [now apply Hone |]. intros fuel.
    now rewrite (waitForResult_step fuel t _ _ _ (Hone H)).
  - intros H H0. split; [now apply Hpending |]. intros fuel.
    now rewrite (waitForResult_step fuel t _ _ _ (Hpending H H0)).
  - intros H H0. split; [now apply Hother |]. intros fuel.
    now rewrite (waitForResult_step fuel t _ _ _ (Hother H H0)).
  - reflexivity.
Qed.
End StatusFacts.

Lemma checkStatus_classifies_witness :
  let env := Demo.env Demo.unverified Demo.fails in
  let check :=
    checkStatus env (Some "KEY") "http://api.etherscan.io" "Foo" "abc123"
                Demo.foo Demo.fooMetadata "A.sol:Foo" None (Some 3%Z) in
  answer_status env 1 "abc123" = Some Demo.fail /\
  trace (check 1) =
  [CheckVerifyStatus "http://api.etherscan.io" (Some "KEY") "abc123";
   Log Error (VerifyFailed "Foo" (Some "NOTOK")
                           (Some "Fail - Unable to verify"));
   Log Error
     (Payload (mkPostData (Some "XXXXXX") "contract" "verifysourcecode"
                          "0xF00" "..." "solidity-standard-json-input"
                          "A.sol:Foo" "v0.7.6" None (Some 3%Z)))] /\
  value (check 1) = Val (Some "failure").
Proof.
  intros env check.
  assert (Hanswer : answer_status env 1 "abc123" = Some Demo.fail)
    by reflexivity.
  split; [exact Hanswer |].
  destruct (checkStatus_classifies env (Some "KEY") "http://api.etherscan.io"
              "Foo" "abc123" "A.sol:Foo" Demo.foo Demo.fooMetadata None
              (Some 3%Z) 1 Demo.fail Hanswer) as (_ & _ & Hfail & _).
  destruct Hfail as [Hcheck _].
  - simpl. discriminate.
  - simpl. discriminate.
  - unfold check. rewrite Hcheck. split; reflexivity.
Defined.

(** ** The steps of [submit], one by one *)

Lemma getLicenseType_range (license : option string) (n : Z) :
  getLicenseType license = Some n -> (1 <= n <= 13)%Z.
Proof.
  destruct license as [l |]; simpl; [| discriminate].
  repeat match goal with
         | |- context [if ?b then _ else _] => destruct b
         end;
    intros [= <-]; lia.
Qed.

Lemma truthy_num_license (license : option string) :
  truthy_num (getLicenseType license) = true ->
  exists n, getLicenseType license = Some n /\ (1 <= n <= 13)%Z.
Proof.
  destruct (getLicenseType license) as [n |] eqn:E; simpl; [| discriminate].
  intros _. exists n. split; [reflexivity |].
  now apply getLicenseType_range with (license := license).
Qed.

Section StepFacts.
Variable env : Env.
Variable solcInputsPath : string.
Variable licenseOption : option string.
Variable forceLicense : bool.
Variable etherscanApiKey : option string.
Variable host : string.

Lemma checkExisting_quiet (name : string) (d : Deployment) :
  sat quiet (fun _ => True) (checkExisting env etherscanApiKey host name d).
Proof.
  unfold checkExisting.
  apply sat_bind with (Q := fun _ => True);
    [apply sat_exchange; exact I | intros abiData _].
  apply sat_bind with (Q := fun _ => True).
  - destruct (negb (str_eq (status abiData) (Some "0")));
      [| now apply sat_ret].
    destruct (JSON_parse env (js_string (result abiData)));
      [now apply sat_ret | apply sat_abort; exact I].
  - intros [v |] _; [| now apply sat_ret].
    destruct (truthy v && negb (is_string "" v));
      [apply sat_abort; exact I | now apply sat_ret].
Qed.

Lemma readMetadata_sat (name : string) (d : Deployment) :
  sat quiet
      (fun md => JSON_parse_metadata env (js_string (metadata d)) = Some md)
      (readMetadata env name d).
Proof.
  unfold readMetadata.
  destruct (negb (truthy_str (metadata d)));
    [apply sat_abort; exact I | now apply sat_defined].
Qed.

Lemma readTarget_sat (name : string) (md : Metadata) :
  sat quiet
      (fun target =>
         compilationTargetOf md = (Some (fst target), Some (snd target)) /\
         fst target <> "" /\ snd target <> "")
      (readTarget name md).
Proof.
  unfold readTarget.
  destruct (compilationTargetOf md) as [[fp |] [cn |]];
    try (apply sat_abort; exact I).
  destruct (String.eqb_spec fp ""); simpl; [apply sat_abort; exact I |].
  destruct (String.eqb_spec cn ""); simpl; [apply sat_abort; exact I |].
  apply sat_ret. simpl. auto.
Qed.

Lemma resolveLicense_sat (name contractNamePath : string)
      (sourceLicenseType : option string) :
  sat quiet (resolved licenseOption forceLicense sourceLicenseType)
      (resolveLicense licenseOption forceLicense name contractNamePath
                      sourceLicenseType).
Proof.
  unfold resolveLicense.
  apply sat_bind with
    (Q := fun lic =>
            lic = licenseOption /\
            (truthy_str sourceLicenseType = false \/
             mismatch licenseOption sourceLicenseType = true /\
             forceLicense = true)
            \/
            lic = sourceLicenseType /\
            truthy_str sourceLicenseType = true /\
            mismatch licenseOption sourceLicenseType = false).
  - fold (mismatch licenseOption sourceLicenseType).
    destruct (truthy_str sourceLicenseType) eqn:Hsrc; simpl.
    + destruct (mismatch licenseOption sourceLicenseType) eqn:Hmis.
      * destruct forceLicense eqn:Hforce; simpl;
          [apply sat_ret; auto | apply sat_abort; exact I].
      * destruct (negb (truthy_num (getLicenseType sourceLicenseType)));
          [apply sat_abort; exact I | apply sat_ret; auto].
    + destruct (negb (truthy_str licenseOption));
        [apply sat_abort; exact I | apply sat_ret; auto].
  - intros lic Hlic.
    destruct (truthy_num (getLicenseType lic)) eqn:Hnum; simpl;
      [| apply sat_abort; exact I].
    apply sat_ret. unfold resolved. simpl.
    split; [reflexivity |]. split; [| exact Hlic].
    now apply truthy_num_license.
Qed.

Lemma buildInput_sat (name : string) (d : Deployment) (md : Metadata)
      (useSolcInput : bool) :
  sat quiet (fun input => useSolcInput = false -> input = metadataInput md)
      (buildInput env solcInputsPath name d md useSolcInput).
Proof.
  unfold buildInput. destruct useSolcInput; [| now apply sat_ret].
  apply sat_bind with (Q := fun _ => True);
    [apply sat_emit; exact I | intros _ _].
  destruct (negb (truthy_str _));
    [apply sat_abort; exact I | apply sat_defined; discriminate].
Qed.

Lemma addLibraries_quiet (contractNamePath : string) (d : Deployment)
      (input : SolcInput) :
  sat quiet (fun _ => True) (addLibraries contractNamePath d input).
Proof.
  unfold addLibraries. destruct (libraries d); [| now apply sat_ret].
  apply sat_bind with (Q := fun _ => True);
    [now apply sat_defined | intros s _].
  apply sat_bind with (Q := fun _ => True);
    [now apply sat_defined | intros; now apply sat_ret].
Qed.

Lemma encodeArguments_sat (d : Deployment) :
  sat quiet
      (fun encoded =>
         encoded <> None ->
         exists a c,
           args d = Some a /\
           find (fun v => abi_type v =? "constructor") (abi d) = Some c)
      (encodeArguments env d).
Proof.
  unfold encodeArguments. destruct (args d) as [a |].
  - destruct (find _ (abi d)) as [c |]; [| now apply sat_ret].
    apply sat_bind with (Q := fun _ => True);
      [now apply sat_defined | intros].
    apply sat_ret. intros _. now exists a, c.
  - apply sat_bind with (Q := fun _ => True);
      [apply sat_emit; exact I | intros; now apply sat_ret].
Qed.

Lemma postSources_sat (P : event -> Prop) (name : string) (data : PostData) :
  (forall e, quiet e -> P e) -> P (Post host data) ->
  sat P (fun _ => True) (postSources env host name data).
Proof.
  intros Hquiet Hpost. unfold postSources.
  apply sat_bind with (Q := fun _ => True);
    [now apply sat_exchange | intros answer _].
  apply sat_bind with (Q := fun _ => True).
  - destruct (str_eq (status answer) (Some "1")); [now apply sat_ret |].
    apply sat_bind with (Q := fun _ => True);
      [apply sat_emit | intros; apply sat_abort]; now apply Hquiet.
  - intros guid _. destruct (negb (truthy_str guid));
      [apply sat_abort; now apply Hquiet | now apply sat_ret].
Qed.

Lemma checkStatus_quiet (name guid : string) (d : Deployment)
      (md : Metadata) (contractNamePath : string)
      (encoded : option string) (code : option Z) :
  sat quiet (fun _ => True)
      (checkStatus env etherscanApiKey host name guid d md contractNamePath
                   encoded code).
Proof.
  unfold checkStatus.
  apply sat_bind with (Q := fun _ => True);
    [apply sat_exchange; exact I | intros answer _].
  destruct (str_eq (status answer) (Some "1")); [now apply sat_ret |].
  destruct (str_eq (result answer) (Some "Pending in queue"));
    [now apply sat_ret |].
  apply sat_bind with (Q := fun _ => True);
    [apply sat_emit; exact I | intros _ _].
  apply sat_bind with (Q := fun _ => True);
    [apply sat_emit; exact I | intros _ _].
  now apply sat_ret.
Qed.

Lemma waitForResult_sat (P : event -> Prop) (check : M (option string))
      (fuel : nat) :
  P (Sleep 10000) -> sat P (fun _ => True) check ->
  sat P (fun r => truthy_str r = true) (waitForResult fuel check).
Proof.
  intros Hsleep Hcheck. induction fuel as [| fuel IH]; simpl.
  - apply sat_halt.
  - apply sat_bind with (Q := fun _ => True);
      [now apply sat_emit | intros _ _].
    apply sat_bind with (Q := fun _ => True); [exact Hcheck | intros r _].
    destruct (truthy_str r) eqn:E; [now apply sat_ret | exact IH].
Qed.
End StepFacts.

(** ** The pipeline as a whole *)

Section PipelineFacts.
Variable env : Env.
Variable solcInputsPath : string.
Variable fallbackOnSolcInput : bool.
Variable licenseOption : option string.
Variable forceLicense : bool.
Variable etherscanApiKey : option string.
Variable all : obj Deployment.
Variable host : string.
Variable budget : nat.

Local Abbreviation prepare' :=
  (prepare env solcInputsPath licenseOption forceLicense etherscanApiKey all
           host).
Local Abbreviation verify' :=
  (verify env solcInputsPath licenseOption forceLicense etherscanApiKey all
          host budget).
Local Abbreviation submit' :=
  (submit env solcInputsPath fallbackOnSolcInput licenseOption forceLicense
          etherscanApiKey all host budget).

(** Whatever [prepare] yields went through every check of lines 147-226. *)
Lemma prepare_sat (name : string) (useSolcInput : bool)
      (R : Prepared -> Prop) :
  (forall d md fp cn src r input,
      obj_get name all = Some d ->
      JSON_parse_metadata env (js_string (metadata d)) = Some md ->
      compilationTargetOf md = (Some fp, Some cn) ->
      fp <> "" -> cn <> "" ->
      sourceFileOf fp md = Some src ->
      resolved licenseOption forceLicense
               (extractOneLicenseFromSourceFile env (js_string src)) r ->
      R (mkPrepared d md (fp ++ ":" ++ cn) (snd r) input)) ->
  sat quiet R (prepare' name useSolcInput).
Proof.
  intros HR. unfold prepare.
  apply sat_bind with (Q := fun d => obj_get name all = Some d);
    [now apply sat_defined | intros d Hd].
  apply sat_bind with (Q := fun _ => True);
    [apply checkExisting_quiet | intros _ _].
  eapply sat_bind; [apply readMetadata_sat | intros md Hmd].
  eapply sat_bind; [apply readTarget_sat | intros [fp cn] (Ht & Hfp & Hcn)].
  simpl in Ht, Hfp, Hcn. simpl fst. simpl snd.
  apply sat_bind with
    (Q := fun src => sourceFileOf fp md = Some src);
    [now apply sat_defined | intros src Hsrc].
  eapply sat_bind; [apply resolveLicense_sat | intros r Hr].
  apply sat_bind with (Q := fun _ => True);
    [eapply sat_weaken; [| apply buildInput_sat]; trivial | intros input _].
  apply sat_bind with (Q := fun _ => True);
    [apply addLibraries_quiet | intros input' _].
  apply sat_ret. now apply HR with (src := src).
Qed.

(** Every event of [verify] is quiet, but for the submission of a payload
    built from what [prepare] yielded. *)
Lemma verify_sat (P : event -> Prop) (R : Prepared -> Prop)
      (name : string) (useSolcInput : bool) :
  (forall e, quiet e -> P e) ->
  sat quiet R (prepare' name useSolcInput) ->
  (forall p encoded,
      R p ->
      (encoded <> None ->
       exists a c, args (the_deployment p) = Some a /\
                   constructorOf (the_deployment p) = Some c) ->
      P (Post host
              (payload etherscanApiKey (the_deployment p) (the_metadata p)
                       (the_contractNamePath p)
                       (JSON_stringify env (the_solcInput p)) encoded
                       (the_licenseType p)))) ->
  sat P (fun _ => True) (verify' name useSolcInput).
Proof.
  intros Hquiet Hprepare Hpost. unfold verify.
  apply sat_bind with (Q := R);
    [now apply sat_events with (P := quiet) | intros p Hp].
  apply sat_bind with (Q := fun _ => True);
    [apply sat_emit; now apply Hquiet | intros _ _].
  eapply sat_bind;
    [apply sat_events with (P := quiet);
     [exact Hquiet | apply encodeArguments_sat] | intros encoded Henc].
  apply sat_bind with (Q := fun _ => True);
    [apply postSources_sat; [exact Hquiet | now apply Hpost]
    | intros guid _].
  apply sat_bind with (Q := fun _ => True);
    [apply sat_emit; now apply Hquiet | intros _ _].
  eapply sat_weaken; [| apply waitForResult_sat]; trivial.
  - now apply Hquiet.
  - apply sat_events with (P := quiet); [exact Hquiet |].
    apply checkStatus_quiet.
Qed.

Lemma conclude_sat (P : event -> Prop) (self : string -> bool -> M unit)
      (name : string) (useSolcInput : bool) (result : option string) :
  (forall e, quiet e -> P e) ->
  sat P (fun _ => True) (self name true) ->
  sat P (fun _ => True)
      (conclude fallbackOnSolcInput self name useSolcInput result).
Proof.
  intros Hquiet Hself. unfold conclude.
  apply sat_bind with (Q := fun _ => True).
  - destruct (str_eq result (Some "success"));
      [apply sat_emit; now apply Hquiet | now apply sat_ret].
  - intros _ _. destruct (str_eq result (Some "failure"));
      [| now apply sat_ret].
    destruct (negb useSolcInput && fallbackOnSolcInput);
      [| apply sat_emit; now apply Hquiet].
    apply sat_bind with (Q := fun _ => True);
      [apply sat_emit; now apply Hquiet | intros _ _; exact Hself].
Qed.

Lemma submit_sat (P : event -> Prop) (name : string) :
  (forall e, quiet e -> P e) ->
  (forall useSolcInput, sat P (fun _ => True) (verify' name useSolcInput)) ->
  forall depth useSolcInput,
    sat P (fun _ => True) (submit' depth name useSolcInput).
Proof.
  intros Hquiet Hverify. induction depth as [| depth IH]; intros u.
  - apply sat_halt.
  - simpl. apply sat_call. unfold submitBody.
    apply sat_bind with (Q := fun _ => True); [apply Hverify | intros r _].
    apply conclude_sat; [exact Hquiet | apply IH].
Qed.

Lemma forEach_sat (P : event -> Prop) (body : string -> M unit)
      (names : list string) :
  (forall name, sat P (fun _ => True) (body name)) ->
  sat P (fun _ => True) (forEach names body).
Proof.
  intros Hbody. induction names as [| name rest IH]; simpl.
  - now apply sat_ret.
  - apply sat_bind with (Q := fun _ => True);
      [apply Hbody | intros _ _; exact IH].
Qed.
End PipelineFacts.

Lemma sat_in {A : Type} (P : event -> Prop) (Q : A -> Prop) (m : M A)
      (t : nat) (e : event) :
  sat P Q m -> In e (trace (m t)) -> P e.
Proof.
  intros H Hin. destruct (H t) as [Hall _].
  rewrite Forall_forall in Hall. now apply Hall.
Qed.

(** ** License resolution *)

(** C1. With MIT found in the source and --license GPL-3.0: without
    --force-license the resolution stops at the mismatch error and the
    contract is never submitted; with it the license sent is GPL-3.0 and its
    code is 5. *)
Theorem license_override_mismatch (env : Env) (solcInputsPath : string)
        (fallbackOnSolcInput : bool) (etherscanApiKey : option string)
        (all : obj Deployment) (host : string) (budget : nat) (name : string) :
  sourceLicenseIs env all name (Some "MIT") ->
  (forall contractNamePath t,
      resolveLicense (Some "GPL-3.0") false name contractNamePath (Some "MIT") t
      = mkRun (Halt Returned)
              [Log Error (LicenseMismatch name (Some "GPL-3.0") (Some "MIT"))]
              t) /\
  (forall depth useSolcInput t h data,
      ~ In (Post h data)
           (trace (submit env solcInputsPath fallbackOnSolcInput
                          (Some "GPL-3.0") false etherscanApiKey all host
                          budget depth name useSolcInput t))) /\
  (forall contractNamePath t,
      resolveLicense (Some "GPL-3.0") true name contractNamePath (Some "MIT") t
      = mkRun (Val (Some "GPL-3.0", Some 5%Z)) [] t) /\
  (forall depth useSolcInput t h data,
      In (Post h data)
         (trace (submit env solcInputsPath fallbackOnSolcInput
                        (Some "GPL-3.0") true etherscanApiKey all host
                        budget depth name useSolcInput t)) ->
      licenseType data = Some 5%Z).
Proof.
  intros Hsource. split; [reflexivity |]. split; [| split; [reflexivity |]].
  - intros depth u t h data Hin.
    refine (sat_in quiet (fun _ : unit => True) _ t _ _ Hin).
    apply submit_sat; [trivial |]. intros u'.
    apply verify_sat with (R := fun _ => False); [trivial | | contradiction].
    apply prepare_sat.
    intros d md fp cn src r input Hd Hmd Ht _ _ Hsrc Hr.
    rewrite (Hsource d md fp cn src Hd Hmd Ht Hsrc) in Hr.
    destruct Hr as (_ & _ & [(_ & [H | [_ H]]) | (_ & _ & H)]);
      discriminate H.
  - intros depth u t h data Hin.
    refine (sat_in (fun e => match e with
                             | Post _ pd => licenseType pd = Some 5%Z
                             | _ => True
                             end)
                   (fun _ : unit => True) _ t (Post h data) _ Hin).
    apply submit_sat; [now intros [] | intros u'].
    apply verify_sat with (R := fun p => the_licenseType p = Some 5%Z);
      [now intros [] | | now intros p encoded Hp _].
    apply prepare_sat.
    intros d md fp cn src r input Hd Hmd Ht _ _ Hsrc Hr.
    rewrite (Hsource d md fp cn src Hd Hmd Ht Hsrc) in Hr.
    destruct Hr as (Hcode & _ & [(Hfst & _) | (_ & _ & H)]);
      [| discriminate H].
    simpl. now rewrite Hcode, Hfst.
Qed.

Lemma license_override_mismatch_witness :
  let env := Demo.env Demo.unverified Demo.passes in
  sourceLicenseIs env Demo.all "Foo" (Some "MIT") /\
  trace (submit env "inputs" false (Some "GPL-3.0") false None Demo.all
                "http://api.etherscan.io" 5 2 "Foo" false 0) =
  [GetAbi "http://api.etherscan.io" "0xF00" None;
   Log Error (LicenseMismatch "Foo" (Some "GPL-3.0") (Some "MIT"))] /\
  forall h data,
    In (Post h data)
       (trace (submit env "inputs" false (Some "GPL-3.0") true None Demo.all
                      "http://api.etherscan.io" 5 2 "Foo" false 0)) ->
    licenseType data = Some 5%Z.
Proof.
  intros env.
  assert (H : sourceLicenseIs env Demo.all "Foo" (Some "MIT")).
  { intros d md fp cn src Hd Hmd Ht Hsrc.
    injection Hd as <-. injection Hmd as <-.
    injection Ht as <- <-. injection Hsrc as <-. reflexivity. }
  split; [exact H |]. split; [reflexivity |].
  intros h data.
  apply (license_override_mismatch env "inputs" false None Demo.all
           "http://api.etherscan.io" 5 "Foo" H).
Defined.

Lemma resolved_licensed (licenseOption : option string) (forceLicense : bool)
      (source : option string) (r : option string * option Z) (h : string)
      (data : PostData) :
  resolved licenseOption forceLicense source r ->
  licenseType data = snd r -> licensed (Post h data).
Proof.
  intros (Hcode & (n & Hn & Hrange) & _) Hdata. simpl.
  destruct (fst r) as [l |] eqn:E.
  - exists l, n. rewrite Hdata. auto.
  - rewrite Hcode in Hn. discriminate Hn.
Qed.

(** C8. Every payload posted to the explorer, on whichever path [submit]
    reaches the POST, carries as [licenseType] the code the table gives the
    license in force, between 1 and 13; and when [resolveLicense] lets a
    license through, its code is defined. *)
Theorem posted_license_in_table (env : Env) (chainId : string)
        (all : obj Deployment) (solcInputsPath : string)
        (config : option Config) (budget t : nat) (h : string)
        (data : PostData) :
  In (Post h data)
     (trace (submitSources env chainId all solcInputsPath config budget t)) ->
  (exists l n,
      licenseType data = getLicenseType (Some l) /\
      licenseType data = Some n /\ (1 <= n <= 13)%Z) /\
  (forall licenseOption forceLicense name contractNamePath source t' r,
      value (resolveLicense licenseOption forceLicense name contractNamePath
                            source t') = Val r ->
      snd r = getLicenseType (fst r) /\
      exists n, snd r = Some n /\ (1 <= n <= 13)%Z).
Proof.
  intros Hin. split.
  - refine (sat_in licensed (fun _ : unit => True) _ t (Post h data) _ Hin).
    unfold submitSources. destruct (explorerHost chainId) as [host |].
    + apply forEach_sat. intros name.
      apply submit_sat; [now intros [] | intros u].
      apply verify_sat with
        (R := fun p =>
                exists lo force source r,
                  resolved lo force source r /\ the_licenseType p = snd r);
        [now intros [] | |].
      * apply prepare_sat. intros d md fp cn src r input _ _ _ _ _ _ Hr.
        eexists _, _, _, r. split; [exact Hr | reflexivity].
      * intros p encoded (lo & force & source & r & Hr & Hp) _.
        now apply resolved_licensed with (1 := Hr).
    + apply sat_call. apply sat_abort. exact I.
  - intros lo force name cnp source t' r Hval.
    destruct (resolveLicense_sat lo force name cnp source t') as [_ Hq].
    destruct (Hq r Hval) as (Hcode & Hn & _). now split.
Qed.

Lemma posted_license_in_table_witness :
  let data :=
    mkPostData (Some "KEY") "contract" "verifysourcecode" "0xF00" "Solidity"
               "solidity-standard-json-input" "A.sol:Foo" "v0.7.6" None
               (Some 5%Z) in
  let run :=
    submitSources (Demo.env Demo.unverified Demo.passes) "1"
                  [("Foo", Demo.foo)] "inputs"
                  (Some (mkConfig (Some "KEY") (Some "GPL-3.0") true true))
                  5 0 in
  In (Post "http://api.etherscan.io" data) (trace run) /\
  exists l n,
    licenseType data = getLicenseType (Some l) /\
    licenseType data = Some n /\ (1 <= n <= 13)%Z.
Proof.
  intros data run.
  assert (H : In (Post "http://api.etherscan.io" data) (trace run)).
  { vm_compute. right. right. left. reflexivity. }
  split; [exact H |].
  exact (proj1 (posted_license_in_table _ _ _ _ _ _ _ _ _ H)).
Defined.

(** ** The check for an existing verification *)

(** C9. When the answer to getabi has a status other than "0" and a result
    that [JSON.parse] rejects, the exception is logged and [submit] returns:
    nothing is posted for the contract, and the loop goes on with the next
    deployment. *)
Theorem unparsable_abi_skips_contract (env : Env) (solcInputsPath : string)
        (fallbackOnSolcInput : bool) (licenseOption : option string)
        (forceLicense : bool) (etherscanApiKey : option string)
        (all : obj Deployment) (host : string) (budget depth : nat)
        (name : string) (useSolcInput : bool) (t : nat) (d : Deployment)
        (abiData : ApiData) (rest : list string) :
  obj_get name all = Some d ->
  answer_getabi env t (address d) = Some abiData ->
  status abiData <> Some "0" ->
  JSON_parse env (js_string (result abiData)) = None ->
  let submit' :=
    submit env solcInputsPath fallbackOnSolcInput licenseOption forceLicense
           etherscanApiKey all host budget (S depth) in
  let skipped :=
    [GetAbi host (address d) etherscanApiKey; Log Error Exception] in
  submit' name useSolcInput t = mkRun (Val tt) skipped (S t) /\
  (forall h data, ~ In (Post h data) (trace (submit' name useSolcInput t))) /\
  forEach (name :: rest) (fun n => submit' n useSolcInput) t =
  let next := forEach rest (fun n => submit' n useSolcInput) (S t) in
  mkRun (value next) (skipped ++ trace next) (clock next).
Proof.
  intros Hd Hanswer Hstatus Hparse submit' skipped.
  assert (Hrun : submit' name useSolcInput t = mkRun (Val tt) skipped (S t)).
  { apply str_eq_false in Hstatus.
    assert (Hcheck : checkExisting env etherscanApiKey host name d t =
                     mkRun (Halt Returned) skipped (S t)).
    { unfold checkExisting, bind, exchange. rewrite Hanswer. cbn.
      rewrite Hstatus. cbn. rewrite Hparse. reflexivity. }
    assert (Hprepare : prepare env solcInputsPath licenseOption forceLicense
                               etherscanApiKey all host name useSolcInput t =
                       mkRun (Halt Returned) skipped (S t)).
    { unfold prepare. rewrite Hd. cbn [defined]. rewrite bind_ret_l.
      now apply bind_halt_run. }
    assert (Hverify : verify env solcInputsPath licenseOption forceLicense
                             etherscanApiKey all host budget name
                             useSolcInput t =
                      mkRun (Halt Returned) skipped (S t)).
    { unfold verify. now apply bind_halt_run. }
    unfold submit'. cbn [submit]. unfold call, submitBody.
    now rewrite (bind_halt_run _ _ t Returned skipped (S t) Hverify). }
  split; [exact Hrun |]. split.
  - intros h data. rewrite Hrun. simpl. intuition discriminate.
  - rewrite forEach_next; rewrite Hrun; reflexivity.
Qed.

Lemma unparsable_abi_skips_contract_witness :
  let env :=
    Demo.env (fun _ => Some (mkApiData (Some "1") (Some "<html>") None))
             Demo.passes in
  let submit' :=
    submit env "inputs" false None false None Demo.all
           "http://api.etherscan.io" 5 2 in
  JSON_parse env "<html>" = None /\
  forEach ["Foo"; "Bar"] (fun n => submit' n false) 0 =
  mkRun (Val tt)
        [GetAbi "http://api.etherscan.io" "0xF00" None; Log Error Exception;
         GetAbi "http://api.etherscan.io" "0xBA2" None; Log Error Exception]
        2.
Proof.
  intros env submit'. split; [reflexivity |].
  assert (Hstatus : Some "1" <> Some "0") by discriminate.
  destruct (unparsable_abi_skips_contract env "inputs" false None false None
              Demo.all "http://api.etherscan.io" 5 1 "Foo" false 0 Demo.foo
              (mkApiData (Some "1") (Some "<html>") None) ["Bar"]
              eq_refl eq_refl Hstatus eq_refl)
    as (_ & _ & Hloop).
  unfold submit'. rewrite Hloop. reflexivity.
Defined.

Lemma trace_bind_l {A B : Type} (m : M A) (k : A -> M B) (t : nat)
      (e : event) :
  In e (trace (m t)) -> In e (trace (bind m k t)).
Proof.
  intros H. unfold bind. destruct (value (m t)); simpl; [| exact H].
  apply in_or_app. now left.
Qed.

Lemma trace_bind_r {A B : Type} (m : M A) (k : A -> M B) (t : nat) (a : A)
      (e : event) :
  value (m t) = Val a -> In e (trace (k a (clock (m t)))) ->
  In e (trace (bind m k t)).
Proof.
  intros Hv H. rewrite (bind_val m k t a Hv). simpl.
  apply in_or_app. now right.
Qed.

Lemma bind_ext {A B : Type} (m : M A) (k k' : A -> M B) (t : nat) :
  (forall a, value (m t) = Val a -> k a (clock (m t)) = k' a (clock (m t))) ->
  bind m k t = bind m k' t.
Proof.
  intros H. unfold bind. destruct (value (m t)) as [a | s]; [| reflexivity].
  now rewrite (H a eq_refl).
Qed.

Lemma call_through (m : M unit) (t : nat) :
  value (m t) <> Halt Returned -> call m t = m t.
Proof.
  intros H. unfold call. destruct (value (m t)) as [a | []]; congruence.
Qed.

(** ** The compilation target *)

Lemma targetAbsent_none (md : Metadata) :
  targetAbsent md -> compilationTargetOf md = (None, None).
Proof.
  unfold targetAbsent, compilationTargetOf.
  destruct (metadata_settings md) as [s |]; [| reflexivity].
  destruct (compilationTarget s) as [[| entry more] |];
    [reflexivity | contradiction | reflexivity].
Qed.

Lemma compilationTargetOf_first (md : Metadata) (s : Settings)
      (fp cn : string) (more : obj string) :
  metadata_settings md = Some s ->
  compilationTarget s = Some ((fp, cn) :: more) ->
  compilationTargetOf md = (Some fp, Some cn).
Proof.
  intros Hs Ht. unfold compilationTargetOf. rewrite Hs, Ht. simpl.
  now rewrite String.eqb_refl.
Qed.

(** C4, as the code has it. A contract whose metadata names no compilation
    target is given up with an error: nothing is posted for it and the loop
    goes on with the next deployment. A mapping of several entries is no
    error by itself: its first entry is the target, and when the path and
    the name of that entry are not empty [readTarget] yields them without
    logging anything, whatever entries follow. *)
Theorem absent_target_skips_contract (env : Env) (solcInputsPath : string)
        (fallbackOnSolcInput : bool) (licenseOption : option string)
        (forceLicense : bool) (etherscanApiKey : option string)
        (all : obj Deployment) (host : string) (budget depth : nat)
        (name : string) (useSolcInput : bool) (t : nat) (d : Deployment)
        (md : Metadata) (rest : list string) :
  obj_get name all = Some d ->
  JSON_parse_metadata env (js_string (metadata d)) = Some md ->
  targetAbsent md ->
  let submit' :=
    submit env solcInputsPath fallbackOnSolcInput licenseOption forceLicense
           etherscanApiKey all host budget (S depth) in
  (forall h data, ~ In (Post h data) (trace (submit' name useSolcInput t))) /\
  (forall tr t',
      checkExisting env etherscanApiKey host name d t = mkRun (Val tt) tr t' ->
      truthy_str (metadata d) = true ->
      let skipped := tr ++ [Log Error (NoCompilationTarget name)] in
      submit' name useSolcInput t = mkRun (Val tt) skipped t' /\
      forEach (name :: rest) (fun n => submit' n useSolcInput) t =
      let next := forEach rest (fun n => submit' n useSolcInput) t' in
      mkRun (value next) (skipped ++ trace next) (clock next)) /\
  (forall md' s fp cn more name' t',
      metadata_settings md' = Some s ->
      compilationTarget s = Some ((fp, cn) :: more) ->
      fp <> "" -> cn <> "" ->
      readTarget name' md' t' = mkRun (Val (fp, cn)) [] t').
Proof.
  intros Hd Hmd Habsent submit'. split; [| split].
  - intros h data Hin.
    refine (sat_in quiet (fun _ : unit => True) _ t _ _ Hin).
    apply submit_sat; [trivial | intros u].
    apply verify_sat with (R := fun _ => False); [trivial | | contradiction].
    apply prepare_sat. intros d' md' fp cn src r input Hd' Hmd' Ht.
    rewrite Hd in Hd'. injection Hd' as <-.
    rewrite Hmd in Hmd'. injection Hmd' as <-.
    rewrite (targetAbsent_none md Habsent) in Ht. discriminate Ht.
  - intros tr t' Hcheck Htruthy skipped.
    assert (Hrun : submit' name useSolcInput t = mkRun (Val tt) skipped t').
    { assert (Hread : readMetadata env name d t' = mkRun (Val md) [] t').
      { unfold readMetadata. rewrite Htruthy. simpl. now rewrite Hmd. }
      assert (Htarget : readTarget name md t' =
                        mkRun (Halt Returned)
                              [Log Error (NoCompilationTarget name)] t').
      { unfold readTarget. now rewrite (targetAbsent_none md Habsent). }
      assert (Hprepare :
                prepare env solcInputsPath licenseOption forceLicense
                        etherscanApiKey all host name useSolcInput t =
                mkRun (Halt Returned) skipped t').
      { unfold prepare. rewrite Hd. cbn [defined]. rewrite bind_ret_l.
        rewrite (bind_val_run _ _ t tt tr t' Hcheck).
        rewrite (bind_val_run _ _ t' md [] t' Hread).
        rewrite (bind_halt_run _ _ t' Returned _ t' Htarget).
        reflexivity. }
      assert (Hverify :
                verify env solcInputsPath licenseOption forceLicense
                       etherscanApiKey all host budget name useSolcInput t =
                mkRun (Halt Returned) skipped t').
      { unfold verify. now apply bind_halt_run. }
      unfold submit'. cbn [submit]. unfold call, submitBody.
      now rewrite (bind_halt_run _ _ t Returned skipped t' Hverify). }
    split; [exact Hrun |].
    rewrite forEach_next; rewrite Hrun; reflexivity.
  - intros md' s fp cn more name' t' Hs Ht Hfp Hcn. unfold readTarget.
    rewrite (compilationTargetOf_first md' s fp cn more Hs Ht).
    destruct (String.eqb_spec fp ""); [contradiction |].
    destruct (String.eqb_spec cn ""); [contradiction |]. reflexivity.
Qed.

Lemma absent_target_skips_contract_witness :
  let env := Demo.env Demo.unverified Demo.passes in
  let submit' :=
    submit env "inputs" false None false None Demo.all
           "http://api.etherscan.io" 5 2 in
  targetAbsent Demo.noTarget /\
  submit' "Baz" false 0 =
  mkRun (Val tt)
        [GetAbi "http://api.etherscan.io" "0xBA3" None;
         Log Error (NoCompilationTarget "Baz")] 1.
Proof.
  intros env submit'.
  assert (Habsent : targetAbsent Demo.noTarget) by exact I.
  split; [exact Habsent |].
  destruct (absent_target_skips_contract env "inputs" false None false None
              Demo.all "http://api.etherscan.io" 5 1 "Baz" false 0 Demo.baz
              Demo.noTarget [] eq_refl eq_refl Habsent) as (_ & Hrun & _).
  exact (proj1 (Hrun [GetAbi "http://api.etherscan.io" "0xBA3" None] 1
                     eq_refl eq_refl)).
Defined.

(** C4, as the spec has it, fails: a compilation target of two entries is
    read as its first entry and the contract is submitted. *)
Lemma ambiguous_target_is_submitted :
  let run :=
    submitSources (Demo.env Demo.unverified Demo.passes) "1"
                  [("Bar", Demo.bar)] "inputs" None 5 0 in
  JSON_parse_metadata (Demo.env Demo.unverified Demo.passes)
                      (js_string (metadata Demo.bar)) = Some Demo.twoTargets /\
  option_map (fun target => length target)
             (match metadata_settings Demo.twoTargets with
              | Some s => compilationTarget s
              | None => None
              end) = Some 2 /\
  In (Post "http://api.etherscan.io"
           (mkPostData None "contract" "verifysourcecode" "0xBA2" "Solidity"
                       "solidity-standard-json-input" "A.sol:Foo" "v0.7.6"
                       None (Some 3%Z)))
     (trace run) /\
  ~ In (Log Error (NoCompilationTarget "Bar")) (trace run) /\
  value run = Val tt.
Proof.
  vm_compute. repeat split.
  - right. right. right. left. reflexivity.
  - intros H. repeat (destruct H as [H | H]; [discriminate H |]). exact H.
Qed.

(** ** Constructor arguments *)

(** C10. When the deployment has [args] and its ABI has no entry of type
    "constructor", [encodeArguments] yields [undefined] without consulting
    the encoder and without an exception; every payload posted for the
    contract has [constructorArguements] undefined, and a contract that
    passed the checks of [prepare] is posted so. *)
Theorem args_without_constructor (env : Env) (solcInputsPath : string)
        (fallbackOnSolcInput : bool) (licenseOption : option string)
        (forceLicense : bool) (etherscanApiKey : option string)
        (all : obj Deployment) (host : string) (budget : nat)
        (name : string) (d : Deployment) (a : list json) :
  obj_get name all = Some d ->
  args d = Some a ->
  constructorOf d = None ->
  (forall env' t, encodeArguments env' d t = mkRun (Val None) [] t) /\
  (forall depth useSolcInput t h data,
      In (Post h data)
         (trace (submit env solcInputsPath fallbackOnSolcInput licenseOption
                        forceLicense etherscanApiKey all host budget depth
                        name useSolcInput t)) ->
      constructorArguements data = None) /\
  (forall useSolcInput t p,
      value (prepare env solcInputsPath licenseOption forceLicense
                     etherscanApiKey all host name useSolcInput t) = Val p ->
      the_deployment p = d /\
      In (Post host
               (payload etherscanApiKey d (the_metadata p)
                        (the_contractNamePath p)
                        (JSON_stringify env (the_solcInput p)) None
                        (the_licenseType p)))
         (trace (verify env solcInputsPath licenseOption forceLicense
                        etherscanApiKey all host budget name useSolcInput
                        t))).
Proof.
  intros Hd Hargs Hnone.
  assert (Hencode : forall env' t,
             encodeArguments env' d t = mkRun (Val None) [] t).
  { intros env' t. unfold encodeArguments. rewrite Hargs.
    unfold constructorOf in Hnone. now rewrite Hnone. }
  assert (Hprepare : forall u,
             sat quiet (fun p => the_deployment p = d)
                 (prepare env solcInputsPath licenseOption forceLicense
                          etherscanApiKey all host name u)).
  { intros u. apply prepare_sat. intros d' md fp cn src r input Hd' _ _ _ _ _ _.
    simpl. congruence. }
  split; [exact Hencode |]. split.
  - intros depth u t h data Hin.
    refine (sat_in (fun e => match e with
                             | Post _ pd => constructorArguements pd = None
                             | _ => True
                             end)
                   (fun _ : unit => True) _ t (Post h data) _ Hin).
    apply submit_sat; [now intros [] | intros u'].
    apply verify_sat with (R := fun p => the_deployment p = d);
      [now intros [] | apply Hprepare |].
    intros p encoded Hp Henc. simpl.
    destruct encoded as [x |]; [| reflexivity].
    destruct Henc as (a' & c & _ & Hc); [discriminate |].
    rewrite Hp in Hc. congruence.
  - intros u t p Hval.
    assert (Hp : the_deployment p = d).
    { destruct (Hprepare u t) as [_ Hq]. now apply Hq. }
    split; [exact Hp |].
    unfold verify. apply trace_bind_r with (a := p); [exact Hval |].
    rewrite Hp.
    apply trace_bind_r with (a := tt); [reflexivity |].
    apply trace_bind_r with (a := None); [now rewrite Hencode |].
    apply trace_bind_l. unfold postSources. apply trace_bind_l.
    unfold exchange. destruct (answer_verify env _ _); now left.
Qed.

Lemma args_without_constructor_witness :
  let env := Demo.env Demo.unverified Demo.passes in
  args Demo.foo = Some [JNum 7] /\
  constructorOf Demo.foo = None /\
  forall h data,
    In (Post h data)
       (trace (submit env "inputs" false None false None Demo.all
                      "http://api.etherscan.io" 5 2 "Foo" false 0)) ->
    constructorArguements data = None.
Proof.
  intros env. split; [reflexivity |]. split; [reflexivity |].
  intros h data.
  apply (proj1 (proj2 (args_without_constructor env "inputs" false None false
                         None Demo.all "http://api.etherscan.io" 5 "Foo"
                         Demo.foo [JNum 7] eq_refl eq_refl eq_refl))).
Defined.

(** ** The fallback on the full compiler input *)

Lemma conclude_report (fallbackOnSolcInput : bool)
      (self : string -> bool -> M unit) (name : string) (useSolcInput : bool)
      (result : option string) :
  (result = Some "failure" -> useSolcInput = true \/ fallbackOnSolcInput = false) ->
  conclude fallbackOnSolcInput self name useSolcInput result =
  report name result.
Proof.
  intros H. unfold conclude, report.
  destruct (str_eq result (Some "failure")) eqn:E; [| reflexivity].
  apply str_eq_spec in E.
  destruct (H E) as [-> | ->]; [reflexivity |].
  now rewrite andb_false_r.
Qed.

Lemma conclude_retry (self : string -> bool -> M unit) (name : string)
      (t : nat) :
  conclude true self name false (Some "failure") t =
  mkRun (value (self name true t))
        (Log Info FallingBack :: trace (self name true t))
        (clock (self name true t)).
Proof. reflexivity. Qed.

Section FallbackFacts.
Variable env : Env.
Variable solcInputsPath : string.
Variable fallbackOnSolcInput : bool.
Variable licenseOption : option string.
Variable forceLicense : bool.
Variable etherscanApiKey : option string.
Variable all : obj Deployment.
Variable host : string.
Variable budget : nat.
Variable name : string.

Let verify' : bool -> M (option string) :=
  verify env solcInputsPath licenseOption forceLicense etherscanApiKey all
         host budget name.
Let submit' : nat -> string -> bool -> M unit :=
  submit env solcInputsPath fallbackOnSolcInput licenseOption forceLicense
         etherscanApiKey all host budget.
Let once' : bool -> M unit :=
  once env solcInputsPath licenseOption forceLicense etherscanApiKey all host
       budget name.

Lemma submit_once (depth : nat) (useSolcInput : bool) (t : nat) :
  (value (verify' useSolcInput t) = Val (Some "failure") ->
   useSolcInput = true \/ fallbackOnSolcInput = false) ->
  submit' (S depth) name useSolcInput t = once' useSolcInput t.
Proof.
  intros H.
  change (submit' (S depth) name useSolcInput t)
    with (call (bind (verify' useSolcInput)
                     (conclude fallbackOnSolcInput (submit' depth) name
                               useSolcInput)) t).
  unfold once', once, call. fold (verify' useSolcInput).
  rewrite (bind_ext (verify' useSolcInput) _ (report name) t);
    [reflexivity |].
  intros r Hr. rewrite conclude_report; [reflexivity |].
  intros ->. now apply H.
Qed.

Lemma submit_retry (depth t : nat) :
  fallbackOnSolcInput = true ->
  value (verify' false t) = Val (Some "failure") ->
  submit' (S (S depth)) name false t =
  let first := verify' false t in
  let second := once' true (clock first) in
  mkRun (value second) (trace first ++ Log Info FallingBack :: trace second)
        (clock second).
Proof.
  intros Hfallback Hfirst.
  change (submit' (S (S depth)) name false t)
    with (call (bind (verify' false)
                     (conclude fallbackOnSolcInput (submit' (S depth)) name
                               false)) t).
  assert (Hbody :
            bind (verify' false)
                 (conclude fallbackOnSolcInput (submit' (S depth)) name false)
                 t =
            let first := verify' false t in
            let second := once' true (clock first) in
            mkRun (value second)
                  (trace first ++ Log Info FallingBack :: trace second)
                  (clock second)).
  { rewrite (bind_val (verify' false) _ t (Some "failure") Hfirst).
    rewrite Hfallback, conclude_retry.
    rewrite (submit_once depth true (clock (verify' false t)));
      [reflexivity | auto]. }
  etransitivity; [apply call_through | exact Hbody].
  rewrite Hbody. simpl. apply call_returns.
Qed.

Lemma once_failure (useSolcInput : bool) (t : nat) :
  value (verify' useSolcInput t) = Val (Some "failure") ->
  once' useSolcInput t =
  mkRun (Val tt) (trace (verify' useSolcInput t) ++ [Log Info Guidance])
        (clock (verify' useSolcInput t)).
Proof.
  intros Hfail. unfold once', once, call. fold (verify' useSolcInput).
  rewrite (bind_val (verify' useSolcInput) _ t (Some "failure") Hfail).
  reflexivity.
Qed.

(** Two nested calls are all [submit] ever needs. *)
Lemma submit_depth (depth : nat) (useSolcInput : bool) (t : nat) :
  submit' (S (S depth)) name useSolcInput t = submit' 2 name useSolcInput t.
Proof.
  destruct useSolcInput; [now rewrite !submit_once by auto |].
  destruct (Bool.bool_dec fallbackOnSolcInput true) as [Hfallback | Hnot];
    [| apply not_true_is_false in Hnot; now rewrite !submit_once by auto].
  destruct (value (verify' false t)) as [[r |] | s] eqn:Hfirst;
    try (rewrite !submit_once; [reflexivity | congruence | congruence]).
  destruct (string_dec r "failure") as [-> | Hne].
  - now rewrite !submit_retry.
  - rewrite !submit_once; [reflexivity | congruence | congruence].
Qed.

(** C3. When the verification of a contract ends in failure, the fallback
    is asked for and the attempt was not made with the full compiler input,
    [submit] runs once' more with the full input, and that second run is one
    pass of the pipeline that ends in a log line whatever its result. In
    every other case, a failure of the second run among them, [submit] does
    not call itself and a failure only logs the guidance. *)
Theorem fallback_retries_once (t : nat) :
  let first := verify' false t in
  (fallbackOnSolcInput = true ->
   value first = Val (Some "failure") ->
   forall depth,
     submit' (S (S depth)) name false t =
     mkRun (value (once' true (clock first)))
           (trace first ++ Log Info FallingBack :: trace (once' true (clock first)))
           (clock (once' true (clock first)))) /\
  (forall depth useSolcInput t',
      (value (verify' useSolcInput t') = Val (Some "failure") ->
       useSolcInput = true \/ fallbackOnSolcInput = false) ->
      submit' (S depth) name useSolcInput t' = once' useSolcInput t') /\
  (forall useSolcInput t',
      value (verify' useSolcInput t') = Val (Some "failure") ->
      once' useSolcInput t' =
      mkRun (Val tt) (trace (verify' useSolcInput t') ++ [Log Info Guidance])
            (clock (verify' useSolcInput t'))).
Proof.
  intros first. split; [| split].
  - intros Hfallback Hfirst depth. now apply submit_retry.
  - intros depth u t'. apply submit_once.
  - intros u t'. apply once_failure.
Qed.
End FallbackFacts.

Lemma fallback_retries_once_witness :
  let env := Demo.env Demo.unverified Demo.fails in
  let verify' :=
    verify env "inputs" None false (Some "KEY") Demo.all
           "http://api.etherscan.io" 5 "Foo" in
  value (verify' false 0) = Val (Some "failure") /\
  value (verify' true 3) = Val (Some "failure") /\
  trace (submit env "inputs" true None false (Some "KEY") Demo.all
                "http://api.etherscan.io" 5 2 "Foo" false 0) =
  trace (verify' false 0) ++
  Log Info FallingBack :: trace (verify' true 3) ++ [Log Info Guidance].
Proof.
  intros env verify'.
  assert (H0 : value (verify' false 0) = Val (Some "failure")) by reflexivity.
  assert (H3 : value (verify' true 3) = Val (Some "failure")) by reflexivity.
  split; [exact H0 |]. split; [exact H3 |].
  destruct (fallback_retries_once env "inputs" true None false (Some "KEY")
              Demo.all "http://api.etherscan.io" 5 "Foo" 0)
    as (Hretry & _ & Honce).
  rewrite (Hretry eq_refl H0 0).
  cbn [trace].
  change (clock (verify env "inputs" None false (Some "KEY") Demo.all
                        "http://api.etherscan.io" 5 "Foo" false 0)) with 3.
  now rewrite (Honce true 3 H3).
Defined.

(** ** The compiler input rebuilt from the metadata *)

Lemma copySources_filter (srcs acc : obj SourceEntry) :
  fold_left
    (fun acc kv =>
       if fst kv =? "__proto__" then acc
       else obj_set (fst kv) (mkSourceEntry (content (snd kv)) []) acc)
    srcs acc =
  fold_left
    (fun acc kv => obj_set (fst kv) (mkSourceEntry (content (snd kv)) []) acc)
    (filter notProto srcs) acc.
Proof.
  revert acc. induction srcs as [| [k0 e0] srcs IH]; intros acc; simpl;
    [reflexivity |].
  unfold notProto at 1. simpl. destruct (k0 =? "__proto__"); simpl; apply IH.
Qed.

Lemma in_keys_filter {V : Type} (o : obj V) (k : string) :
  In k (keys (filter notProto o)) <-> In k (keys o) /\ k <> "__proto__".
Proof.
  unfold keys. rewrite !in_map_iff. split.
  - intros ([k0 v] & <- & Hin). apply filter_In in Hin.
    destruct Hin as [Hin Hk]. split; [now exists (k0, v) |].
    unfold notProto in Hk. simpl in *. intros ->. discriminate Hk.
  - intros (([k0 v] & <- & Hin) & Hk). exists (k0, v). split; [reflexivity |].
    apply filter_In. split; [exact Hin |]. unfold notProto. simpl in *.
    now destruct (String.eqb_spec k0 "__proto__").
Qed.

Lemma NoDup_keys_filter {V : Type} (o : obj V) :
  NoDup (keys o) -> NoDup (keys (filter notProto o)).
Proof.
  induction o as [| [k v] o IH]; simpl; intros Hnd; [constructor |].
  inversion Hnd as [| ? ? Hout Hrest]; subst.
  destruct (notProto (k, v)); simpl; [| now apply IH].
  constructor; [| now apply IH].
  intros Hin. apply Hout. now apply in_keys_filter in Hin.
Qed.



(** With the keys of an object distinct, the copy is entry by entry, the
    entry named [__proto__] left out. *)
Lemma copySources_map (srcs : obj SourceEntry) :
  NoDup (keys srcs) ->
  copySources srcs =
  map (fun kv => (fst kv, mkSourceEntry (content (snd kv)) []))
      (filter notProto srcs).
Proof.
  intros Hnd. unfold copySources. rewrite copySources_filter.
  apply NoDup_keys_filter in Hnd. revert Hnd.
  generalize (filter notProto srcs). clear srcs. intros srcs.
  enough (H : forall acc,
             NoDup (keys acc ++ keys srcs) ->
             fold_left
               (fun acc kv =>
                  obj_set (fst kv) (mkSourceEntry (content (snd kv)) []) acc)
               srcs acc =
             acc ++ map (fun kv => (fst kv, mkSourceEntry (content (snd kv)) []))
                        srcs)
    by (intros Hnd; now apply (H [])).
  induction srcs as [| [k0 e0] srcs IH]; intros acc Hnd; simpl.
  - now rewrite app_nil_r.
  - simpl in Hnd. rewrite obj_set_absent.
    + rewrite IH.
      * now rewrite <- app_assoc.
      * unfold keys in *. rewrite map_app, <- app_assoc. exact Hnd.
    + apply NoDup_remove_2 in Hnd. intros Hin. apply Hnd.
      apply in_or_app. now left.
Qed.




(** ** Libraries *)

Lemma linkedOf_set (contractNamePath : string) (linked : obj string)
      (libs : obj linkage) :
  linkedOf contractNamePath (obj_set contractNamePath (Linked linked) libs) =
  linked.
Proof. unfold linkedOf. now rewrite obj_get_set_same. Qed.












Lemma linkLibrary_get_other (libraryName address lib : string)
      (linked : obj string) :
  libraryName <> lib ->
  obj_get lib (linkLibrary libraryName address linked) = obj_get lib linked.
Proof.
  intros Hne. unfold linkLibrary.
  destruct ((libraryName =? "__proto__")
            && negb (existsb (String.eqb libraryName) (keys linked)));
    [reflexivity | now apply obj_get_set_other].
Qed.






Lemma addLibrary_occupied (contractNamePath a : string) (libs : obj linkage)
      (entry : string * string) :
  obj_get contractNamePath libs = Some (Address a) -> a <> "" ->
  addLibrary contractNamePath libs entry =
  if fst entry =? "__proto__" then Some libs else None.
Proof.
  intros E Ha. unfold addLibrary. rewrite E. simpl.
  destruct (String.eqb_spec a ""); [contradiction |]. simpl. now rewrite E.
Qed.



(** An address already stored under the name of the contract makes the
    write of line 273 throw, at the first library that is not named
    [__proto__]. *)
Lemma mergeLibraries_occupied (contractNamePath a : string)
      (declared : obj string) (s : Settings) (libs : obj linkage) :
  settings_libraries s = Some libs ->
  obj_get contractNamePath libs = Some (Address a) -> a <> "" ->
  (exists entry, In entry declared /\ fst entry <> "__proto__") ->
  mergeLibraries contractNamePath declared s = None.
Proof.
  intros Hs E Ha Hsome. unfold mergeLibraries. rewrite Hs.
  enough (H : addEach contractNamePath declared libs = None) by now rewrite H.
  induction declared as [| entry rest IH].
  - destruct Hsome as (entry & [] & _).
  - cbn [addEach].
    rewrite (addLibrary_occupied contractNamePath a libs entry E Ha).
    destruct (String.eqb_spec (fst entry) "__proto__") as [Hp | Hp];
      [| reflexivity].
    apply IH. destruct Hsome as (e & [<- | Hin] & Hne);
      [contradiction | now exists e].
Qed.




(** * Further properties *)

(** ** The licenses of a source file *)

Lemma licenseSeen_set (found : obj bool) (m m' : string) :
  licenseSeen (obj_set m true found) m' =
  if m =? m' then true else licenseSeen found m'.
Proof.
  unfold licenseSeen. destruct (String.eqb_spec m m') as [<- | Hne].
  - now rewrite obj_get_set_same.
  - now rewrite obj_get_set_other.
Qed.

Lemma collectLicenses_spec (matches : list string) :
  forall (found : obj bool) (licenses : list string),
    NoDup licenses ->
    (forall m, licenseSeen found m = true <->
               In m licenses \/ inherited m = true) ->
    NoDup (collectLicenses found licenses matches) /\
    forall m,
      In m (collectLicenses found licenses matches) <->
      In m licenses \/ (In m matches /\ inherited m = false).
Proof.
  induction matches as [| m0 rest IH]; intros found licenses Hnd Hseen; simpl.
  - split; [exact Hnd |]. intros m. intuition.
  - destruct (licenseSeen found m0) eqn:E.
    + destruct (IH found licenses Hnd Hseen) as [Hnd' Hin]. split; [exact Hnd' |].
      intros m. rewrite Hin. apply Hseen in E.
      split; [intuition |]. intros [H | [[<- | H] Hi]]; auto.
      destruct E as [E | E]; [auto | congruence].
    + assert (Hfresh : ~ In m0 licenses /\ inherited m0 = false).
      { split.
        - intros H. assert (licenseSeen found m0 = true) by (apply Hseen; auto).
          congruence.
        - destruct (inherited m0) eqn:Hi; [| reflexivity].
          assert (licenseSeen found m0 = true) by (apply Hseen; auto).
          congruence. }
      destruct Hfresh as [Hnew Hown].
      destruct (IH (obj_set m0 true found) (licenses ++ [m0])) as [Hnd' Hin].
      * apply NoDup_app; [exact Hnd | repeat constructor; intros [] |].
        intros x Hx [<- | []]. contradiction.
      * intros m. rewrite licenseSeen_set, in_app_iff. simpl.
        destruct (String.eqb_spec m0 m) as [<- | Hne].
        -- intuition.
        -- rewrite Hseen. intuition congruence.
      * split; [exact Hnd' |]. intros m. rewrite Hin, in_app_iff. simpl.
        intuition; subst; auto.
Qed.

(** X1. The licenses extracted from a source hold no license twice, and they
    are the matches of the SPDX expression whose text is not the name of a
    property every object inherits. *)
Theorem extracted_licenses_distinct (env : Env) (source : string) :
  NoDup (extractLicenseFromSources env source) /\
  forall l,
    In l (extractLicenseFromSources env source) <->
    In l (matchAllSPDX env source) /\ inherited l = false.
Proof.
  unfold extractLicenseFromSources.
  destruct (collectLicenses_spec (matchAllSPDX env source) [] [])
    as [Hnd Hin].
  - constructor.
  - intros m. unfold licenseSeen, inherited. simpl. intuition.
  - split; [exact Hnd |]. intros l. rewrite Hin. simpl. intuition.
Qed.

Lemma collectLicenses_head (matches : list string) :
  forall (found : obj bool) (licenses : list string),
    hd_error (collectLicenses found licenses matches) =
    match licenses with
    | l :: _ => Some l
    | [] => find (fun m => negb (licenseSeen found m)) matches
    end.
Proof.
  induction matches as [| m0 rest IH]; intros found licenses; simpl.
  - now destruct licenses.
  - destruct (licenseSeen found m0) eqn:E; rewrite IH;
      now destruct licenses.
Qed.

(** X2. The one license taken from a source file is the first match of the
    SPDX expression whose text is not the name of an inherited property, and
    there is none when the file has no such match; later, different licenses
    are passed over in silence. *)
Theorem primary_license_is_first_match (env : Env) (source : string) :
  extractOneLicenseFromSourceFile env source =
  find (fun m => negb (inherited m)) (matchAllSPDX env source).
Proof.
  unfold extractOneLicenseFromSourceFile, extractLicenseFromSources.
  now rewrite collectLicenses_head.
Qed.

(** ** The two tables *)

Ltac by_table :=
  repeat match goal with
         | H : context [String.eqb ?a ?b] |- _ =>
             destruct (String.eqb_spec a b); subst
         | |- context [String.eqb ?a ?b] =>
             destruct (String.eqb_spec a b); subst
         end.

(** X3. [getLicenseType] is one-to-one from the thirteen license names onto
    the codes 1 to 13: two names with the same code are the same name, every
    code from 1 to 13 is the code of a name, and any other string, like no
    string at all, has no code. *)
Theorem license_codes_bijective :
  (forall a b n,
      getLicenseType (Some a) = Some n -> getLicenseType (Some b) = Some n ->
      a = b) /\
  (forall n, (1 <= n <= 13)%Z ->
             exists l, In l supportedLicenses /\ getLicenseType (Some l) = Some n) /\
  (forall l, getLicenseType (Some l) <> None <-> In l supportedLicenses) /\
  getLicenseType None = None.
Proof.
  split; [| split; [| split; [| reflexivity]]].
  - intros a b n Ha Hb. unfold getLicenseType in Ha, Hb.
    by_table; congruence.
  - intros n Hn.
    assert (Hcases : (n = 1 \/ n = 2 \/ n = 3 \/ n = 4 \/ n = 5 \/ n = 6 \/
                      n = 7 \/ n = 8 \/ n = 9 \/ n = 10 \/ n = 11 \/
                      n = 12 \/ n = 13)%Z) by lia.
    exists (nth (Z.to_nat n - 1) supportedLicenses "").
    repeat (destruct Hcases as [-> | Hcases];
            [split; [simpl; tauto | reflexivity] |]).
    subst. split; [simpl; tauto | reflexivity].
  - intros l. unfold getLicenseType, supportedLicenses. simpl.
    by_table; intuition congruence.
Qed.

(** X4. No two chains share an explorer: chain ids with the same host are
    the same chain id. *)
Theorem explorer_hosts_distinct (a b host : string) :
  explorerHost a = Some host -> explorerHost b = Some host -> a = b.
Proof.
  unfold explorerHost. intros Ha Hb. by_table; congruence.
Qed.

Lemma explorer_hosts_distinct_witness :
  explorerHost "56" = Some "https://api.bscscan.com" /\ "56" = "56".
Proof.
  split; [reflexivity |].
  exact (explorer_hosts_distinct "56" "56" "https://api.bscscan.com"
                                 eq_refl eq_refl).
Defined.

(** ** Where one contract stops *)

Lemma forEach_stops (body : string -> M unit) (name : string)
      (rest : list string) (t : nat) (s : stop) :
  value (body name t) = Halt s ->
  forEach (name :: rest) body t =
  mkRun (Halt s) (trace (body name t)) (clock (body name t)).
Proof. intros H. simpl. unfold bind. now rewrite H. Qed.

Section StopFacts.
Variable env : Env.
Variable solcInputsPath : string.
Variable fallbackOnSolcInput : bool.
Variable licenseOption : option string.
Variable forceLicense : bool.
Variable etherscanApiKey : option string.
Variable all : obj Deployment.
Variable host : string.
Variable budget : nat.
Variables (name : string) (useSolcInput : bool) (d : Deployment).
Hypothesis deployed : obj_get name all = Some d.

Local Abbreviation prepare' :=
  (prepare env solcInputsPath licenseOption forceLicense etherscanApiKey all
           host name useSolcInput).
Local Abbreviation verify' :=
  (verify env solcInputsPath licenseOption forceLicense etherscanApiKey all
          host budget name useSolcInput).
Local Abbreviation submit' :=
  (submit env solcInputsPath fallbackOnSolcInput licenseOption forceLicense
          etherscanApiKey all host budget).
Local Abbreviation check' := (checkExisting env etherscanApiKey host name d).

Lemma submit_stops (depth t : nat) (s : stop) (tr : list event) (t' : nat) :
  prepare' t = mkRun (Halt s) tr t' ->
  submit' (S depth) name useSolcInput t = mkRun (seen s) tr t'.
Proof.
  intros H.
  assert (Hverify : verify' t = mkRun (Halt s) tr t').
  { unfold verify. now apply bind_halt_run. }
  cbn [submit]. unfold call, submitBody.
  rewrite (bind_halt_run _ _ t s tr t' Hverify). now destruct s.
Qed.

Lemma prepare_stops_at_check (t : nat) (s : stop) (tr : list event)
      (t' : nat) :
  check' t = mkRun (Halt s) tr t' -> prepare' t = mkRun (Halt s) tr t'.
Proof.
  intros H. unfold prepare. rewrite deployed. cbn [defined].
  rewrite bind_ret_l. now apply bind_halt_run.
Qed.

Lemma prepare_stops_at_metadata (t : nat) (tr : list event) (t' : nat)
      (s : stop) (tr2 : list event) (t'' : nat) :
  check' t = mkRun (Val tt) tr t' ->
  readMetadata env name d t' = mkRun (Halt s) tr2 t'' ->
  prepare' t = mkRun (Halt s) (tr ++ tr2) t''.
Proof.
  intros Hcheck Hread. unfold prepare. rewrite deployed. cbn [defined].
  rewrite bind_ret_l, (bind_val_run _ _ t tt tr t' Hcheck).
  now rewrite (bind_halt_run _ _ t' s tr2 t'' Hread).
Qed.

Lemma prepare_stops_at_source (t : nat) (tr : list event) (t' : nat)
      (md : Metadata) (fp cn : string) :
  check' t = mkRun (Val tt) tr t' ->
  readMetadata env name d t' = mkRun (Val md) [] t' ->
  readTarget name md t' = mkRun (Val (fp, cn)) [] t' ->
  sourceFileOf fp md = None ->
  prepare' t = mkRun (Halt Rejected) tr t'.
Proof.
  intros Hcheck Hread Htarget Hsource. unfold prepare.
  rewrite deployed. cbn [defined].
  rewrite bind_ret_l, (bind_val_run _ _ t tt tr t' Hcheck).
  rewrite (bind_val_run _ _ t' md [] t' Hread).
  rewrite (bind_val_run _ _ t' (fp, cn) [] t' Htarget).
  cbn [fst snd]. rewrite Hsource. cbn [defined].
  unfold bind at 1. cbn. now rewrite !app_nil_r.
Qed.

Lemma readMetadata_parsed (t : nat) (md : Metadata) :
  truthy_str (metadata d) = true ->
  JSON_parse_metadata env (js_string (metadata d)) = Some md ->
  readMetadata env name d t = mkRun (Val md) [] t.
Proof.
  intros Htruthy Hmd. unfold readMetadata. rewrite Htruthy. simpl.
  now rewrite Hmd.
Qed.

Lemma readTarget_named (t : nat) (md : Metadata) (fp cn : string) :
  compilationTargetOf md = (Some fp, Some cn) -> fp <> "" -> cn <> "" ->
  readTarget name md t = mkRun (Val (fp, cn)) [] t.
Proof.
  intros Ht Hfp Hcn. unfold readTarget. rewrite Ht.
  destruct (String.eqb_spec fp ""); [contradiction |].
  destruct (String.eqb_spec cn ""); [contradiction |]. reflexivity.
Qed.

(** X5. A contract the explorer already knows is skipped: when the answer
    to getabi has a status other than "0" and a result that parses to a
    truthy value, [submit] logs that and returns, with the full compiler
    input or without; nothing is posted, and the loop goes on with the next
    deployment. *)
Theorem already_verified_is_skipped (depth t : nat) (answer : ApiData)
        (v : json) (rest : list string) :
  answer_getabi env t (address d) = Some answer ->
  status answer <> Some "0" ->
  JSON_parse env (js_string (result answer)) = Some v ->
  truthy v = true ->
  let skipped :=
    [GetAbi host (address d) etherscanApiKey;
     Log Plain (AlreadyVerified name (address d))] in
  submit' (S depth) name useSolcInput t = mkRun (Val tt) skipped (S t) /\
  forEach (name :: rest) (fun n => submit' (S depth) n useSolcInput) t =
  let next :=
    forEach rest (fun n => submit' (S depth) n useSolcInput) (S t) in
  mkRun (value next) (skipped ++ trace next) (clock next).
Proof.
  intros Hanswer Hstatus Hparse Htruthy skipped.
  assert (Hcheck : check' t = mkRun (Halt Returned) skipped (S t)).
  { apply str_eq_false in Hstatus.
    unfold checkExisting, bind, exchange. rewrite Hanswer. cbn.
    rewrite Hstatus. cbn. rewrite Hparse. cbn. rewrite Htruthy.
    destruct v; try discriminate; try reflexivity.
    simpl in Htruthy. simpl. now rewrite Htruthy. }
  assert (Hrun : submit' (S depth) name useSolcInput t =
                 mkRun (Val tt) skipped (S t)).
  { refine (submit_stops depth t Returned skipped (S t) _).
    now apply prepare_stops_at_check. }
  split; [exact Hrun |].
  rewrite forEach_next; rewrite Hrun; reflexivity.
Qed.

(** X6. A contract the explorer does not know goes on to the next step with
    nothing but the request in its trace: a status "0" is taken at its
    word and the result is not parsed, and with another status a result
    that parses to a falsy value (null, false, 0, the empty string) does not
    count as an ABI. *)
Theorem unverified_goes_on (t : nat) (answer : ApiData) :
  answer_getabi env t (address d) = Some answer ->
  (status answer = Some "0" \/
   exists v, JSON_parse env (js_string (result answer)) = Some v /\
             truthy v = false) ->
  check' t = mkRun (Val tt) [GetAbi host (address d) etherscanApiKey] (S t).
Proof.
  intros Hanswer Hcases.
  unfold checkExisting, bind, exchange. rewrite Hanswer. cbn.
  destruct (str_eq (status answer) (Some "0")) eqn:E; [reflexivity |].
  apply str_eq_false in E. destruct Hcases as [H | (v & Hparse & Hfalsy)];
    [contradiction |].
  cbn. rewrite Hparse. cbn. now rewrite Hfalsy.
Qed.

(** X7. A deployment saved without metadata (none, or an empty string) is
    given up with an error once the explorer said it does not know the
    contract: nothing is posted, and the loop goes on with the next
    deployment. *)
Theorem missing_metadata_skips_contract (depth t : nat) (tr : list event)
        (t' : nat) (rest : list string) :
  check' t = mkRun (Val tt) tr t' ->
  truthy_str (metadata d) = false ->
  let skipped := tr ++ [Log Error (NoMetadata name)] in
  submit' (S depth) name useSolcInput t = mkRun (Val tt) skipped t' /\
  forEach (name :: rest) (fun n => submit' (S depth) n useSolcInput) t =
  let next := forEach rest (fun n => submit' (S depth) n useSolcInput) t' in
  mkRun (value next) (skipped ++ trace next) (clock next).
Proof.
  intros Hcheck Hfalsy skipped.
  assert (Hread : readMetadata env name d t' =
                  mkRun (Halt Returned) [Log Error (NoMetadata name)] t').
  { unfold readMetadata. now rewrite Hfalsy. }
  assert (Hrun : submit' (S depth) name useSolcInput t =
                 mkRun (Val tt) skipped t').
  { refine (submit_stops depth t Returned skipped t' _). unfold skipped.
    now apply prepare_stops_at_metadata with (t' := t'). }
  split; [exact Hrun |].
  rewrite forEach_next; rewrite Hrun; reflexivity.
Qed.

(** X8. Metadata that [JSON.parse] rejects is not caught: [submit] throws,
    and the loop over the deployments ends there, the deployments after it
    left untouched. *)
Theorem unparsable_metadata_ends_batch (depth t : nat) (tr : list event)
        (t' : nat) (rest : list string) :
  check' t = mkRun (Val tt) tr t' ->
  truthy_str (metadata d) = true ->
  JSON_parse_metadata env (js_string (metadata d)) = None ->
  submit' (S depth) name useSolcInput t = mkRun (Halt Rejected) tr t' /\
  forEach (name :: rest) (fun n => submit' (S depth) n useSolcInput) t =
  mkRun (Halt Rejected) tr t'.
Proof.
  intros Hcheck Htruthy Hparse.
  assert (Hread : readMetadata env name d t' = mkRun (Halt Rejected) [] t').
  { unfold readMetadata. rewrite Htruthy. simpl. now rewrite Hparse. }
  assert (Hrun : submit' (S depth) name useSolcInput t =
                 mkRun (Halt Rejected) tr t').
  { refine (submit_stops depth t Rejected tr t' _).
    rewrite <- (app_nil_r tr).
    now apply prepare_stops_at_metadata with (t' := t'). }
  split; [exact Hrun |].
  rewrite (forEach_stops _ name rest t Rejected); now rewrite Hrun.
Qed.

(** X9. When the compilation target names a file that the sources of the
    metadata do not hold, and that is not the name of a property every
    object inherits, reading its content throws: [submit] is rejected
    before any license is looked for, and the loop over the deployments
    ends there. *)
Theorem stray_target_ends_batch (depth t : nat) (tr : list event) (t' : nat)
        (md : Metadata) (fp cn : string) (rest : list string) :
  check' t = mkRun (Val tt) tr t' ->
  truthy_str (metadata d) = true ->
  JSON_parse_metadata env (js_string (metadata d)) = Some md ->
  compilationTargetOf md = (Some fp, Some cn) -> fp <> "" -> cn <> "" ->
  obj_get fp (metadata_sources md) = None ->
  inherited fp = false ->
  submit' (S depth) name useSolcInput t = mkRun (Halt Rejected) tr t' /\
  forEach (name :: rest) (fun n => submit' (S depth) n useSolcInput) t =
  mkRun (Halt Rejected) tr t'.
Proof.
  intros Hcheck Htruthy Hparse Htarget Hfp Hcn Hown Hproto.
  assert (Hsource : sourceFileOf fp md = None).
  { unfold sourceFileOf. now rewrite Hown, Hproto. }
  assert (Hrun : submit' (S depth) name useSolcInput t =
                 mkRun (Halt Rejected) tr t').
  { refine (submit_stops depth t Rejected tr t' _).
    apply prepare_stops_at_source with (md := md) (fp := fp) (cn := cn);
      [exact Hcheck | now apply readMetadata_parsed
      | now apply readTarget_named | exact Hsource]. }
  split; [exact Hrun |].
  rewrite (forEach_stops _ name rest t Rejected); now rewrite Hrun.
Qed.
End StopFacts.

Lemma already_verified_is_skipped_witness :
  let env := Cases.env Cases.verified Cases.accepted Demo.passes Cases.noFiles in
  let submit' :=
    submit env "inputs" true None false None Cases.all
           "http://api.etherscan.io" 5 2 in
  forEach ["Foo"; "Built"] (fun n => submit' n false) 0 =
  mkRun (Val tt)
        [GetAbi "http://api.etherscan.io" "0xF00" None;
         Log Plain (AlreadyVerified "Foo" "0xF00");
         GetAbi "http://api.etherscan.io" "0xBA7" None;
         Log Plain (AlreadyVerified "Built" "0xBA7")] 2.
Proof.
  intros env submit'.
  assert (Hstatus : Some "1" <> Some "0") by discriminate.
  destruct (already_verified_is_skipped env "inputs" true None false None
              Cases.all "http://api.etherscan.io" 5 "Foo" false Demo.foo
              eq_refl 1 0 (mkApiData (Some "1") (Some "[]") (Some "OK"))
              (JArr []) ["Built"] eq_refl Hstatus eq_refl eq_refl)
    as [_ Hloop].
  unfold submit'. rewrite Hloop. reflexivity.
Defined.

Lemma unverified_goes_on_witness :
  let env := Cases.env (fun _ => Some (mkApiData (Some "1") (Some "null") None))
                       Cases.accepted Demo.passes Cases.noFiles in
  JSON_parse env "null" = Some JNull /\
  checkExisting env (Some "KEY") "http://api.etherscan.io" "Foo" Demo.foo 0 =
  mkRun (Val tt) [GetAbi "http://api.etherscan.io" "0xF00" (Some "KEY")] 1.
Proof.
  intros env. split; [reflexivity |].
  apply (unverified_goes_on env (Some "KEY") "http://api.etherscan.io" "Foo"
           Demo.foo 0 (mkApiData (Some "1") (Some "null") None) eq_refl).
  right. exists JNull. split; reflexivity.
Defined.

Lemma missing_metadata_skips_contract_witness :
  let env :=
    Cases.env Demo.unverified Cases.accepted Demo.passes Cases.noFiles in
  let submit' :=
    submit env "inputs" false None false None Cases.all
           "http://api.etherscan.io" 5 2 in
  truthy_str (metadata Cases.bare) = false /\
  submit' "Bare" false 0 =
  mkRun (Val tt)
        [GetAbi "http://api.etherscan.io" "0xBA4" None;
         Log Error (NoMetadata "Bare")] 1.
Proof.
  intros env submit'. split; [reflexivity |].
  exact (proj1 (missing_metadata_skips_contract env "inputs" false None false
                  None Cases.all "http://api.etherscan.io" 5 "Bare" false
                  Cases.bare eq_refl 1 0
                  [GetAbi "http://api.etherscan.io" "0xBA4" None] 1 []
                  eq_refl eq_refl)).
Defined.

Lemma unparsable_metadata_ends_batch_witness :
  let env :=
    Cases.env Demo.unverified Cases.accepted Demo.passes Cases.noFiles in
  let submit' :=
    submit env "inputs" false None false None Cases.all
           "http://api.etherscan.io" 5 2 in
  JSON_parse_metadata env "{oops" = None /\
  forEach ["Garbled"; "Foo"] (fun n => submit' n false) 0 =
  mkRun (Halt Rejected) [GetAbi "http://api.etherscan.io" "0xBA5" None] 1.
Proof.
  intros env submit'. split; [reflexivity |].
  exact (proj2 (unparsable_metadata_ends_batch env "inputs" false None false
                  None Cases.all "http://api.etherscan.io" 5 "Garbled" false
                  Cases.garbled eq_refl 1 0
                  [GetAbi "http://api.etherscan.io" "0xBA5" None] 1 ["Foo"]
                  eq_refl eq_refl eq_refl)).
Defined.

Lemma stray_target_ends_batch_witness :
  let env :=
    Cases.env Demo.unverified Cases.accepted Demo.passes Cases.noFiles in
  let submit' :=
    submit env "inputs" false None false None Cases.all
           "http://api.etherscan.io" 5 2 in
  obj_get "C.sol" (metadata_sources Cases.strayTarget) = None /\
  inherited "C.sol" = false /\
  forEach ["Stray"; "Foo"] (fun n => submit' n false) 0 =
  mkRun (Halt Rejected) [GetAbi "http://api.etherscan.io" "0xBA6" None] 1.
Proof.
  intros env submit'. split; [reflexivity |]. split; [reflexivity |].
  assert (Hfp : "C.sol" <> "") by discriminate.
  assert (Hcn : "Qux" <> "") by discriminate.
  exact (proj2 (stray_target_ends_batch env "inputs" false None false None
                  Cases.all "http://api.etherscan.io" 5 "Stray" false
                  Cases.stray eq_refl 1 0
                  [GetAbi "http://api.etherscan.io" "0xBA6" None] 1
                  Cases.strayTarget "C.sol" "Qux" ["Foo"]
                  eq_refl eq_refl eq_refl eq_refl Hfp Hcn eq_refl eq_refl)).
Defined.

(** ** Which license is sent *)

(** X10. [forceLicense] is looked at only when the --license option names
    a license other than the one found in the source: in every other case
    (no license in the source, no option, or the two agree) the resolution
    runs the same with the flag and without it. *)
Theorem force_matters_only_on_mismatch (licenseOption : option string)
        (name contractNamePath : string) (sourceLicenseType : option string)
        (t : nat) :
  truthy_str sourceLicenseType = false \/
  mismatch licenseOption sourceLicenseType = false ->
  resolveLicense licenseOption true name contractNamePath sourceLicenseType t =
  resolveLicense licenseOption false name contractNamePath sourceLicenseType t.
Proof.
  unfold resolveLicense, mismatch. intros [H | H]; now rewrite H.
Qed.

Lemma force_matters_only_on_mismatch_witness :
  mismatch (Some "MIT") (Some "MIT") = false /\
  resolveLicense (Some "MIT") true "Foo" "A.sol:Foo" (Some "MIT") 0 =
  mkRun (Val (Some "MIT", Some 3%Z)) [] 0 /\
  resolveLicense (Some "MIT") false "Foo" "A.sol:Foo" (Some "MIT") 0 =
  mkRun (Val (Some "MIT", Some 3%Z)) [] 0.
Proof.
  split; [reflexivity |]. split; [reflexivity |].
  rewrite <- (force_matters_only_on_mismatch (Some "MIT") "Foo" "A.sol:Foo"
                (Some "MIT") 0 (or_intror eq_refl)).
  reflexivity.
Defined.

Lemma resolved_effective (licenseOption : option string) (forceLicense : bool)
      (source : option string) (r : option string * option Z) :
  resolved licenseOption forceLicense source r ->
  snd r = getLicenseType (effectiveLicense licenseOption forceLicense source).
Proof.
  intros (Hcode & _ & Hwhich). rewrite Hcode. f_equal.
  unfold effectiveLicense.
  destruct Hwhich as [(Hfst & [Hsrc | [Hmis Hforce]]) | (Hfst & Hsrc & Hmis)].
  - now rewrite Hsrc.
  - rewrite Hmis, Hforce. simpl.
    destruct (truthy_str source); exact Hfst.
  - now rewrite Hsrc, Hmis.
Qed.

(** X11. Whatever is posted for a contract carries the code of one license:
    the license found in its source, or the --license option when the
    source has none or when --force-license backs an option that differs.
    Without --force-license the option never changes the code that is
    posted for a source that names its license. *)
Theorem posted_code_is_effective (env : Env) (solcInputsPath : string)
        (fallbackOnSolcInput : bool) (licenseOption : option string)
        (forceLicense : bool) (etherscanApiKey : option string)
        (all : obj Deployment) (host : string) (budget : nat) (name : string)
        (found : option string) (depth : nat) (useSolcInput : bool) (t : nat)
        (h : string) (data : PostData) :
  sourceLicenseIs env all name found ->
  In (Post h data)
     (trace (submit env solcInputsPath fallbackOnSolcInput licenseOption
                    forceLicense etherscanApiKey all host budget depth name
                    useSolcInput t)) ->
  licenseType data =
  getLicenseType (effectiveLicense licenseOption forceLicense found) /\
  (forceLicense = false -> truthy_str found = true ->
   licenseType data = getLicenseType found).
Proof.
  intros Hsource Hin.
  assert (Hcode : licenseType data =
                  getLicenseType
                    (effectiveLicense licenseOption forceLicense found)).
  { refine (sat_in
              (fun e => match e with
                        | Post _ pd =>
                            licenseType pd =
                            getLicenseType
                              (effectiveLicense licenseOption forceLicense
                                                found)
                        | _ => True
                        end)
              (fun _ : unit => True) _ t (Post h data) _ Hin).
    apply submit_sat; [now intros [] | intros u].
    apply verify_sat with
      (R := fun p =>
              the_licenseType p =
              getLicenseType
                (effectiveLicense licenseOption forceLicense found));
      [now intros [] | | now intros p encoded Hp _].
    apply prepare_sat. intros d md fp cn src r input Hd Hmd Ht _ _ Hsrc Hr.
    rewrite (Hsource d md fp cn src Hd Hmd Ht Hsrc) in Hr. simpl.
    now apply resolved_effective. }
  split; [exact Hcode |].
  intros Hforce Htruthy. rewrite Hcode. unfold effectiveLicense.
  now rewrite Htruthy, Hforce, andb_false_r.
Qed.

Lemma posted_code_is_effective_witness :
  let env := Demo.env Demo.unverified Demo.passes in
  let run :=
    submit env "inputs" false (Some "MIT") false None Demo.all
           "http://api.etherscan.io" 5 2 "Foo" false 0 in
  let data :=
    mkPostData None "contract" "verifysourcecode" "0xF00" "Solidity"
               "solidity-standard-json-input" "A.sol:Foo" "v0.7.6" None
               (Some 3%Z) in
  sourceLicenseIs env Demo.all "Foo" (Some "MIT") /\
  In (Post "http://api.etherscan.io" data) (trace run) /\
  licenseType data = getLicenseType (Some "MIT").
Proof.
  intros env run data.
  assert (Hsource : sourceLicenseIs env Demo.all "Foo" (Some "MIT")).
  { intros d md fp cn src Hd Hmd Ht Hsrc.
    injection Hd as <-. injection Hmd as <-.
    injection Ht as <- <-. injection Hsrc as <-. reflexivity. }
  assert (Hin : In (Post "http://api.etherscan.io" data) (trace run)).
  { vm_compute. right. right. left. reflexivity. }
  split; [exact Hsource |]. split; [exact Hin |].
  exact (proj2 (posted_code_is_effective env "inputs" false (Some "MIT") false
                  None Demo.all "http://api.etherscan.io" 5 "Foo" (Some "MIT")
                  2 false 0 "http://api.etherscan.io" data Hsource Hin)
               eq_refl eq_refl).
Defined.

(** ** The constructor arguments *)

Lemma substring_all (s : string) : substring 0 (String.length s) s = s.
Proof. induction s as [| c s IH]; simpl; [reflexivity | now rewrite IH]. Qed.

Lemma slice_0x (hex : string) : slice 2 ("0x" ++ hex) = hex.
Proof. unfold slice. simpl. rewrite Nat.sub_0_r. apply substring_all. Qed.

Lemma find_first {A : Type} (f : A -> bool) (l : list A) (x : A) :
  find f l = Some x ->
  f x = true /\
  exists before after,
    l = before ++ x :: after /\ forall y, In y before -> f y = false.
Proof.
  induction l as [| a l IH]; simpl; [discriminate |].
  destruct (f a) eqn:E.
  - intros [= <-]. split; [exact E |]. exists [], l. split; [reflexivity |].
    intros y [].
  - intros H. destruct (IH H) as (Hx & before & after & -> & Hb).
    split; [exact Hx |]. exists (a :: before), after. split; [reflexivity |].
    intros y [<- | Hy]; [exact E | now apply Hb].
Qed.

(** X12. The constructor arguments sent are the encoding of [args] against
    the inputs of the first ABI entry of type "constructor", without its
    leading "0x"; an exception of the encoder is not caught; and without
    [args] nothing is encoded, whatever the constructor takes: the
    assumption is logged and the field stays undefined. *)
Theorem constructor_arguments_encoded (env : Env) (d : Deployment) (t : nat) :
  (args d = None ->
   encodeArguments env d t = mkRun (Val None) [Log Info NoArgs] t) /\
  (forall a c,
      args d = Some a -> constructorOf d = Some c ->
      (forall hex,
          abi_encode env (abi_inputs c) a = Some ("0x" ++ hex)%string ->
          encodeArguments env d t = mkRun (Val (Some hex)) [] t) /\
      (abi_encode env (abi_inputs c) a = None ->
       encodeArguments env d t = mkRun (Halt Rejected) [] t)) /\
  (forall c,
      constructorOf d = Some c ->
      abi_type c = "constructor" /\
      exists before after,
        abi d = before ++ c :: after /\
        forall x, In x before -> abi_type x <> "constructor").
Proof.
  split; [| split].
  - intros Hargs. unfold encodeArguments. now rewrite Hargs.
  - intros a c Hargs Hc. unfold constructorOf in Hc. split.
    + intros hex Henc. unfold encodeArguments. rewrite Hargs, Hc, Henc.
      cbn [defined]. rewrite bind_ret_l. now rewrite slice_0x.
    + intros Henc. unfold encodeArguments. rewrite Hargs, Hc.
      unfold bind. now rewrite Henc.
  - intros c Hc. unfold constructorOf in Hc.
    destruct (find_first _ _ _ Hc) as (Htype & before & after & Habi & Hb).
    split; [now apply String.eqb_eq |].
    exists before, after. split; [exact Habi |].
    intros x Hx. apply String.eqb_neq. now apply Hb.
Qed.

Lemma constructor_arguments_encoded_witness :
  let env :=
    Cases.env Demo.unverified Cases.accepted Demo.passes Cases.noFiles in
  constructorOf Cases.built =
  Some (mkAbiEntry "constructor" [mkParamType "owner" "address"]) /\
  encodeArguments env Cases.built 0 = mkRun (Val (Some "00ff")) [] 0.
Proof.
  intros env. split; [reflexivity |].
  destruct (constructor_arguments_encoded env Cases.built 0)
    as (_ & Hencoded & _).
  exact (proj1 (Hencoded [JStr "0x01"] _ eq_refl eq_refl) "00ff" eq_refl).
Defined.

(** ** The submission *)

Lemma postSources_runs (env : Env) (host name : string) (data : PostData)
      (t : nat) (answer : ApiData) :
  answer_verify env t data = Some answer ->
  postSources env host name data t =
  if str_eq (status answer) (Some "1") then
    if truthy_str (result answer)
    then mkRun (Val (js_string (result answer))) [Post host data] (S t)
    else mkRun (Halt Returned) [Post host data; Log Error (NoGuid name)] (S t)
  else
    mkRun (Halt Returned)
          [Post host data; Log Plain (Response answer);
           Log Error (SubmitFailed name (message answer) answer)] (S t).
Proof.
  intros Hanswer. unfold postSources, bind, exchange. rewrite Hanswer. cbn.
  destruct (str_eq (status answer) (Some "1")); cbn; [| reflexivity].
  now destruct (truthy_str (result answer)).
Qed.

Section SubmissionFacts.
Variable env : Env.
Variable solcInputsPath : string.
Variable fallbackOnSolcInput : bool.
Variable licenseOption : option string.
Variable forceLicense : bool.
Variable etherscanApiKey : option string.
Variable all : obj Deployment.
Variable host : string.
Variable budget : nat.
Variables (name : string) (useSolcInput : bool).

Local Abbreviation prepare' :=
  (prepare env solcInputsPath licenseOption forceLicense etherscanApiKey all
           host name useSolcInput).
Local Abbreviation verify' :=
  (verify env solcInputsPath licenseOption forceLicense etherscanApiKey all
          host budget name useSolcInput).
Local Abbreviation submit' :=
  (submit env solcInputsPath fallbackOnSolcInput licenseOption forceLicense
          etherscanApiKey all host budget).

Lemma verify_stops_at_post (t : nat) (p : Prepared) (tr : list event)
      (t' : nat) (encoded : option string) (tr2 tr3 : list event)
      (t'' : nat) :
  prepare' t = mkRun (Val p) tr t' ->
  encodeArguments env (the_deployment p) t' = mkRun (Val encoded) tr2 t' ->
  postSources env host name
              (payload etherscanApiKey (the_deployment p) (the_metadata p)
                       (the_contractNamePath p)
                       (JSON_stringify env (the_solcInput p)) encoded
                       (the_licenseType p)) t' =
  mkRun (Halt Returned) tr3 t'' ->
  verify' t =
  mkRun (Halt Returned)
        (tr ++ Log Info (Verifying name (address (the_deployment p)))
            :: tr2 ++ tr3) t''.
Proof.
  intros Hprepare Hencode Hpost. unfold verify.
  rewrite (bind_val_run _ _ t p tr t' Hprepare). cbv zeta.
  match goal with
  | |- context [value (?rest t')] =>
      assert (Hrest :
                rest t' =
                mkRun (Halt Returned)
                      (Log Info (Verifying name (address (the_deployment p)))
                           :: tr2 ++ tr3) t'')
  end.
  { rewrite (bind_val_run
               (emit (Log Info (Verifying name (address (the_deployment p)))))
               _ t' tt _ t' eq_refl).
    rewrite (bind_val_run _ _ t' encoded tr2 t' Hencode).
    now rewrite (bind_halt_run _ _ t' Returned tr3 t'' Hpost). }
  now rewrite Hrest.
Qed.

(** X13. A submission the explorer refuses (a status other than "1"), or
    accepts without a guid, ends the contract there: the answer is logged,
    no status is asked for, the fallback on the full compiler input is not
    tried even when asked for, and [submit] returns for the loop to go on. *)
Theorem refused_submission_is_final (depth t : nat) (p : Prepared)
        (tr : list event) (t' : nat) (encoded : option string)
        (tr2 : list event) (answer : ApiData) :
  prepare' t = mkRun (Val p) tr t' ->
  encodeArguments env (the_deployment p) t' = mkRun (Val encoded) tr2 t' ->
  let data :=
    payload etherscanApiKey (the_deployment p) (the_metadata p)
            (the_contractNamePath p) (JSON_stringify env (the_solcInput p))
            encoded (the_licenseType p) in
  answer_verify env t' data = Some answer ->
  status answer <> Some "1" \/ truthy_str (result answer) = false ->
  let said :=
    if str_eq (status answer) (Some "1")
    then [Log Error (NoGuid name)]
    else [Log Plain (Response answer);
          Log Error (SubmitFailed name (message answer) answer)] in
  submit' (S depth) name useSolcInput t =
  mkRun (Val tt)
        (tr ++ Log Info (Verifying name (address (the_deployment p)))
            :: tr2 ++ Post host data :: said) (S t').
Proof.
  intros Hprepare Hencode data Hanswer Hrefused said.
  assert (Hpost : postSources env host name data t' =
                  mkRun (Halt Returned) (Post host data :: said) (S t')).
  { rewrite (postSources_runs env host name data t' answer Hanswer).
    unfold said. destruct (str_eq (status answer) (Some "1")) eqn:E;
      [| reflexivity].
    apply str_eq_spec in E. destruct Hrefused as [H | H];
      [contradiction | now rewrite H]. }
  assert (Hverify := verify_stops_at_post t p tr t' encoded tr2 _ (S t')
                       Hprepare Hencode Hpost).
  cbn [submit]. unfold call, submitBody.
  now rewrite (bind_halt_run _ _ t Returned _ (S t') Hverify).
Qed.
End SubmissionFacts.

Lemma refused_submission_is_final_witness :
  let env :=
    Cases.env Demo.unverified Cases.refused Demo.passes Cases.noFiles in
  let run :=
    submit env "inputs" true None false None Cases.all
           "http://api.etherscan.io" 5 2 "Foo" false 0 in
  value run = Val tt /\ clock run = 2 /\
  ~ In (Log Info FallingBack) (trace run).
Proof.
  intros env run.
  assert (Hstatus : Some "0" <> Some "1") by discriminate.
  let v := eval vm_compute in
             (prepare env "inputs" None false None Cases.all
                      "http://api.etherscan.io" "Foo" false 0) in
  match v with
  | mkRun (Val ?p) ?tr ?t' =>
      assert (Hprepare : prepare env "inputs" None false None Cases.all
                                 "http://api.etherscan.io" "Foo" false 0 =
                         mkRun (Val p) tr t') by (vm_compute; reflexivity);
      pose proof
           (refused_submission_is_final env "inputs" true None false None
              Cases.all "http://api.etherscan.io" 5 "Foo" false 1 0 p tr t'
              None []
              (mkApiData (Some "0") (Some "Max rate limit reached")
                         (Some "NOTOK"))
              Hprepare eq_refl eq_refl (or_introl Hstatus)) as Hrun
  end.
  unfold run. rewrite Hrun. split; [reflexivity |]. split; [reflexivity |].
  vm_compute. intros H.
  repeat (destruct H as [H | H]; [discriminate H |]). exact H.
Defined.

(** ** The wait for a result *)

Section WaitFacts.
Variable env : Env.
Variable etherscanApiKey : option string.
Variable host : string.
Variables (name guid contractNamePath : string).
Variables (deployment : Deployment) (md : Metadata).
Variables (constructorArguements : option string) (licenseType : option Z).

Local Abbreviation check :=
  (checkStatus env etherscanApiKey host name guid deployment md
               contractNamePath constructorArguements licenseType).
Local Abbreviation request := (CheckVerifyStatus host etherscanApiKey guid).

Lemma checkStatus_pending (t : nat) (answer : ApiData) :
  answer_status env t guid = Some answer -> isPending answer ->
  check t = mkRun (Val None) [request] (S t).
Proof.
  intros Hanswer [Hstatus Hresult].
  apply str_eq_false in Hstatus. apply str_eq_spec in Hresult.
  unfold checkStatus, bind, exchange. rewrite Hanswer. cbn.
  now rewrite Hstatus, Hresult.
Qed.

Lemma checkStatus_settled (t : nat) (answer : ApiData) :
  answer_status env t guid = Some answer -> ~ isPending answer ->
  exists verdict tr,
    check t = mkRun (Val (Some verdict)) tr (S t) /\
    (verdict = "success" \/ verdict = "failure").
Proof.
  intros Hanswer Hnot.
  unfold checkStatus, bind, exchange. rewrite Hanswer. cbn.
  destruct (str_eq (status answer) (Some "1")) eqn:E1.
  - eexists. eexists. split; [reflexivity | now left].
  - destruct (str_eq (result answer) (Some "Pending in queue")) eqn:E2.
    + exfalso. apply Hnot. split; [now apply str_eq_false | now apply str_eq_spec].
    + eexists. eexists. split; [reflexivity | now right].
Qed.

(** X14. The wait goes through any number of answers that leave the job in
    the queue and ends at the first answer that does not, with success or
    with failure: [k] pending answers cost [k + 1] sleeps of ten seconds and
    [k + 1] status checks, each check right after its sleep. *)
Theorem wait_ends_at_first_verdict (k : nat) :
  forall (fuel t : nat),
    (forall i, i < k ->
               exists answer,
                 answer_status env (t + i) guid = Some answer /\
                 isPending answer) ->
    (exists answer,
        answer_status env (t + k) guid = Some answer /\ ~ isPending answer) ->
    k < fuel ->
    let last := check (t + k) in
    waitForResult fuel check t =
    mkRun (value last)
          (concat (repeat [Sleep 10000; request] k)
                  ++ Sleep 10000 :: trace last)
          (clock last) /\
    (value last = Val (Some "success") \/ value last = Val (Some "failure")) /\
    clock last = S (t + k).
Proof.
  induction k as [| k IH]; intros fuel t Hpending Hlast Hfuel last.
  - destruct fuel as [| fuel]; [lia |].
    destruct Hlast as (answer & Hanswer & Hnot).
    destruct (checkStatus_settled (t + 0) answer Hanswer Hnot)
      as (verdict & tr & Hcheck & Hverdict).
    unfold last. rewrite Hcheck. cbn [value trace clock].
    rewrite Nat.add_0_r in Hcheck.
    rewrite (waitForResult_step env etherscanApiKey host name guid
               contractNamePath deployment md constructorArguements
               licenseType fuel t (Some verdict) tr (S (t + 0))).
    + destruct Hverdict as [-> | ->]; (split; [reflexivity | split; auto]).
    + now rewrite Nat.add_0_r.
  - destruct fuel as [| fuel]; [lia |].
    destruct (Hpending 0) as (first & Hfirst & Hqueue); [lia |].
    rewrite Nat.add_0_r in Hfirst.
    rewrite (waitForResult_step env etherscanApiKey host name guid
               contractNamePath deployment md constructorArguements
               licenseType fuel t None [request] (S t)
               (checkStatus_pending t first Hfirst Hqueue)).
    cbn [truthy_str].
    destruct (IH fuel (S t)) as (Hrest & Hverdict & Hclock).
    + intros i Hi. destruct (Hpending (S i)) as (a & Ha & Hq); [lia |].
      exists a. split; [| exact Hq]. now rewrite Nat.add_succ_comm.
    + destruct Hlast as (a & Ha & Hq). exists a.
      split; [| exact Hq]. now rewrite Nat.add_succ_comm.
    + lia.
    + unfold last. rewrite <- Nat.add_succ_comm.
      cbv zeta. rewrite Hrest. cbn [value trace clock].
      split; [| split; [exact Hverdict | exact Hclock]].
      reflexivity.
Qed.
End WaitFacts.

Lemma wait_ends_at_first_verdict_witness :
  let env := Demo.env Demo.unverified Demo.passes in
  let request :=
    CheckVerifyStatus "http://api.etherscan.io" None "abc123" in
  waitForResult 5
    (checkStatus env None "http://api.etherscan.io" "Foo" "abc123" Demo.foo
                 Demo.fooMetadata "A.sol:Foo" None (Some 3%Z)) 2 =
  mkRun (Val (Some "success"))
        [Sleep 10000; request; Sleep 10000; request; Sleep 10000; request] 5.
Proof.
  intros env request.
  destruct (wait_ends_at_first_verdict env None "http://api.etherscan.io"
              "Foo" "abc123" "A.sol:Foo" Demo.foo Demo.fooMetadata None
              (Some 3%Z) 2 5 2) as (Hrun & _ & _).
  - intros i Hi. exists Demo.pending.
    destruct i as [| [| i]]; [| | lia];
      (split; [reflexivity | split; [discriminate | reflexivity]]).
  - exists Demo.pass. split; [reflexivity |]. intros [H _]. now apply H.
  - lia.
  - rewrite Hrun. reflexivity.
Defined.

Lemma sat_any {A : Type} (m : M A) : sat (fun _ => True) (fun _ => True) m.
Proof.
  intros t. split; [| trivial]. apply Forall_forall. trivial.
Qed.

Lemma checkStatus_verdict (env : Env) (etherscanApiKey : option string)
      (host name guid : string) (d : Deployment) (md : Metadata)
      (contractNamePath : string) (encoded : option string)
      (code : option Z) :
  sat (fun _ => True)
      (fun r => r = None \/ r = Some "success" \/ r = Some "failure")
      (checkStatus env etherscanApiKey host name guid d md contractNamePath
                   encoded code).
Proof.
  unfold checkStatus.
  apply sat_bind with (Q := fun _ => True); [apply sat_any | intros a _].
  destruct (str_eq (status a) (Some "1")); [apply sat_ret; auto |].
  destruct (str_eq (result a) (Some "Pending in queue"));
    [apply sat_ret; auto |].
  apply sat_bind with (Q := fun _ => True); [apply sat_any | intros _ _].
  apply sat_bind with (Q := fun _ => True); [apply sat_any | intros _ _].
  apply sat_ret. auto.
Qed.

Lemma waitForResult_verdict (check : M (option string)) (fuel : nat) :
  sat (fun _ => True)
      (fun r => r = None \/ r = Some "success" \/ r = Some "failure") check ->
  sat (fun _ => True) (fun r => r = Some "success" \/ r = Some "failure")
      (waitForResult fuel check).
Proof.
  intros Hcheck. induction fuel as [| fuel IH]; simpl.
  - apply sat_halt.
  - apply sat_bind with (Q := fun _ => True); [apply sat_any | intros _ _].
    eapply sat_bind; [exact Hcheck | intros r Hr].
    destruct (truthy_str r) eqn:E; [| exact IH].
    apply sat_ret. destruct Hr as [-> | Hr]; [discriminate E | exact Hr].
Qed.

Section VerdictFacts.
Variable env : Env.
Variable solcInputsPath : string.
Variable fallbackOnSolcInput : bool.
Variable licenseOption : option string.
Variable forceLicense : bool.
Variable etherscanApiKey : option string.
Variable all : obj Deployment.
Variable host : string.
Variable budget : nat.
Variables (name : string) (useSolcInput : bool).

Local Abbreviation verify' :=
  (verify env solcInputsPath licenseOption forceLicense etherscanApiKey all
          host budget name useSolcInput).
Local Abbreviation submit' :=
  (submit env solcInputsPath fallbackOnSolcInput licenseOption forceLicense
          etherscanApiKey all host budget).

Lemma verify_verdict :
  sat (fun _ => True) (fun r => r = Some "success" \/ r = Some "failure")
      verify'.
Proof.
  unfold verify.
  apply sat_bind with (Q := fun _ => True); [apply sat_any | intros p _].
  cbv zeta.
  apply sat_bind with (Q := fun _ => True); [apply sat_any | intros _ _].
  apply sat_bind with (Q := fun _ => True); [apply sat_any | intros enc _].
  apply sat_bind with (Q := fun _ => True); [apply sat_any | intros guid _].
  apply sat_bind with (Q := fun _ => True); [apply sat_any | intros _ _].
  apply waitForResult_verdict. apply checkStatus_verdict.
Qed.

(** X15. The pipeline of one contract, when it runs to its end, ends with
    "success" or with "failure" and nothing else; and success is final: the
    contract is logged as verified and [submit] returns, whatever the
    fallback flag and the mode of the attempt. *)
Theorem success_is_final (t : nat) :
  (forall r, value (verify' t) = Val r ->
             r = Some "success" \/ r = Some "failure") /\
  (value (verify' t) = Val (Some "success") ->
   forall depth,
     submit' (S depth) name useSolcInput t =
     mkRun (Val tt) (trace (verify' t) ++ [Log Success (Verified name)])
           (clock (verify' t))).
Proof.
  split.
  - intros r Hr. destruct (verify_verdict t) as [_ Hq]. now apply Hq.
  - intros Hsuccess depth.
    rewrite (submit_once env solcInputsPath fallbackOnSolcInput licenseOption
               forceLicense etherscanApiKey all host budget name depth
               useSolcInput t)
      by (rewrite Hsuccess; discriminate).
    unfold once, call.
    now rewrite (bind_val verify' _ t (Some "success") Hsuccess).
Qed.
End VerdictFacts.

Lemma success_is_final_witness :
  let env := Demo.env Demo.unverified Demo.passes in
  let verify' :=
    verify env "inputs" None false None Demo.all "http://api.etherscan.io" 5
           "Foo" false in
  value (verify' 0) = Val (Some "success") /\
  submit env "inputs" true None false None Demo.all
         "http://api.etherscan.io" 5 2 "Foo" false 0 =
  mkRun (Val tt) (trace (verify' 0) ++ [Log Success (Verified "Foo")]) 5.
Proof.
  intros env verify'.
  assert (H : value (verify' 0) = Val (Some "success")) by reflexivity.
  split; [exact H |].
  exact (proj2 (success_is_final env "inputs" true None false None Demo.all
                  "http://api.etherscan.io" 5 "Foo" false 0) H 1).
Defined.

(** ** The budget of the model *)

Lemma agrees_refl {A : Type} (m : M A) : agrees m m.
Proof. now intros t _. Qed.

Lemma agrees_bind {A B : Type} (m' m : M A) (k' k : A -> M B) :
  agrees m' m -> (forall a, agrees (k' a) (k a)) ->
  agrees (bind m' k') (bind m k).
Proof.
  intros Hm Hk t H. unfold bind in *.
  destruct (value (m t)) as [a | s] eqn:E.
  - rewrite (Hm t) by (rewrite E; discriminate). rewrite E.
    simpl in H. now rewrite (Hk a (clock (m t)) H).
  - rewrite (Hm t) by (rewrite E; intros [= ->]; now apply H).
    now rewrite E.
Qed.

Lemma agrees_call (m' m : M unit) : agrees m' m -> agrees (call m') (call m).
Proof.
  intros Hm t H. unfold call in *.
  assert (Hvalue : value (m t) <> Halt Exhausted).
  { intros E. rewrite E in H. now apply H. }
  now rewrite (Hm t Hvalue).
Qed.

Lemma agrees_wait (check : M (option string)) (fuel extra : nat) :
  agrees (waitForResult (fuel + extra) check) (waitForResult fuel check).
Proof.
  induction fuel as [| fuel IH].
  - intros t H. exfalso. now apply H.
  - cbn [Nat.add waitForResult].
    apply agrees_bind; [apply agrees_refl | intros _].
    apply agrees_bind; [apply agrees_refl | intros r].
    destruct (truthy_str r); [apply agrees_refl | exact IH].
Qed.

Section BudgetFacts.
Variable env : Env.
Variable solcInputsPath : string.
Variable fallbackOnSolcInput : bool.
Variable licenseOption : option string.
Variable forceLicense : bool.
Variable etherscanApiKey : option string.
Variable all : obj Deployment.
Variable host : string.
Variables (budget extra : nat).

Lemma agrees_verify (name : string) (useSolcInput : bool) :
  agrees (verify env solcInputsPath licenseOption forceLicense etherscanApiKey
                 all host (budget + extra) name useSolcInput)
         (verify env solcInputsPath licenseOption forceLicense etherscanApiKey
                 all host budget name useSolcInput).
Proof.
  unfold verify.
  apply agrees_bind; [apply agrees_refl | intros p]. cbv zeta.
  apply agrees_bind; [apply agrees_refl | intros _].
  apply agrees_bind; [apply agrees_refl | intros encoded].
  apply agrees_bind; [apply agrees_refl | intros guid].
  apply agrees_bind; [apply agrees_refl | intros _].
  apply agrees_wait.
Qed.

Lemma agrees_conclude (self' self : string -> bool -> M unit)
      (name : string) (useSolcInput : bool) (result : option string) :
  (forall n u, agrees (self' n u) (self n u)) ->
  agrees (conclude fallbackOnSolcInput self' name useSolcInput result)
         (conclude fallbackOnSolcInput self name useSolcInput result).
Proof.
  intros Hself. unfold conclude.
  apply agrees_bind; [apply agrees_refl | intros _].
  destruct (str_eq result (Some "failure")); [| apply agrees_refl].
  destruct (negb useSolcInput && fallbackOnSolcInput); [| apply agrees_refl].
  apply agrees_bind; [apply agrees_refl | intros _]. apply Hself.
Qed.

Lemma agrees_submit (depth : nat) :
  forall name useSolcInput,
    agrees (submit env solcInputsPath fallbackOnSolcInput licenseOption
                   forceLicense etherscanApiKey all host (budget + extra)
                   depth name useSolcInput)
           (submit env solcInputsPath fallbackOnSolcInput licenseOption
                   forceLicense etherscanApiKey all host budget depth name
                   useSolcInput).
Proof.
  induction depth as [| depth IH]; intros name u; cbn [submit].
  - apply agrees_refl.
  - apply agrees_call. unfold submitBody.
    apply agrees_bind; [apply agrees_verify | intros r].
    now apply agrees_conclude.
Qed.

Lemma agrees_forEach (body' body : string -> M unit) (names : list string) :
  (forall n, agrees (body' n) (body n)) ->
  agrees (forEach names body') (forEach names body).
Proof.
  intros Hbody. induction names as [| n rest IH]; simpl.
  - apply agrees_refl.
  - apply agrees_bind; [apply Hbody | intros _; exact IH].
Qed.
End BudgetFacts.

(** X16. The number of status checks the model follows never shapes a run:
    a run of [submitSources] that does not stop for want of budget is the
    same run under any larger budget. *)
Theorem budget_is_immaterial (env : Env) (chainId : string)
        (all : obj Deployment) (solcInputsPath : string)
        (config : option Config) (budget extra t : nat) :
  value (submitSources env chainId all solcInputsPath config budget t)
  <> Halt Exhausted ->
  submitSources env chainId all solcInputsPath config (budget + extra) t =
  submitSources env chainId all solcInputsPath config budget t.
Proof.
  revert t. change (agrees (submitSources env chainId all solcInputsPath
                                          config (budget + extra))
                           (submitSources env chainId all solcInputsPath
                                          config budget)).
  unfold submitSources.
  destruct (explorerHost chainId) as [host |]; [| apply agrees_refl].
  apply agrees_forEach. intros n. apply agrees_submit.
Qed.

Lemma budget_is_immaterial_witness :
  let env := Demo.env Demo.unverified Demo.passes in
  value (submitSources env "1" [("Foo", Demo.foo)] "inputs" None 3 0) = Val tt /\
  submitSources env "1" [("Foo", Demo.foo)] "inputs" None (3 + 40) 0 =
  submitSources env "1" [("Foo", Demo.foo)] "inputs" None 3 0.
Proof.
  intros env.
  assert (H : value (submitSources env "1" [("Foo", Demo.foo)] "inputs" None
                                   3 0) = Val tt) by reflexivity.
  split; [exact H |].
  apply (budget_is_immaterial env "1" [("Foo", Demo.foo)] "inputs" None 3 40 0).
  rewrite H. discriminate.
Defined.

(** ** What a run leaves in its trace *)

Ltac emits_ok :=
  first [exact I | solve [repeat split; (reflexivity || assumption)]].

Ltac walk :=
  repeat first
    [ apply sat_ret; exact I
    | apply sat_halt
    | apply sat_abort; emits_ok
    | apply sat_emit; emits_ok
    | apply sat_exchange; emits_ok
    | apply sat_defined; intros; exact I
    | apply sat_bind with (Q := fun _ => True); [| intros ? _]
    | progress cbv beta iota zeta
    | match goal with
      | |- sat _ _ (if ?b then _ else _) => destruct b
      | |- sat _ _ (match ?x with _ => _ end) => destruct x
      end ].

Section EmitFacts.
Variable env : Env.
Variable solcInputsPath : string.
Variable fallbackOnSolcInput : bool.
Variable licenseOption : option string.
Variable forceLicense : bool.
Variable etherscanApiKey : option string.
Variable all : obj Deployment.
Variable host : string.
Variable budget : nat.

Local Abbreviation emits' := (emits etherscanApiKey host solcInputsPath).
Local Abbreviation emitsFor' :=
  (emitsFor etherscanApiKey host solcInputsPath).

Lemma emits_full (d : Deployment) (e : event) :
  forall full, emits' full d e -> emits' true d e.
Proof.
  intros full. destruct e as [l [] | | | | |]; simpl; trivial.
  intros (_ & H); auto.
Qed.

Lemma prepare_emits (name : string) (useSolcInput : bool) (d : Deployment) :
  obj_get name all = Some d ->
  sat (emits' useSolcInput d) (fun p => the_deployment p = d)
      (prepare env solcInputsPath licenseOption forceLicense etherscanApiKey
               all host name useSolcInput).
Proof.
  intros Hd.
  unfold prepare, checkExisting, readMetadata, readTarget, resolveLicense,
    buildInput, addLibraries.
  rewrite Hd. cbn [defined].
  apply sat_bind with (Q := fun d' => d' = d);
    [now apply sat_ret | intros d' ->].
  apply sat_bind with (Q := fun _ => True); [walk | intros _ _].
  apply sat_bind with (Q := fun _ => True); [walk | intros md _].
  apply sat_bind with (Q := fun _ => True); [walk | intros target _].
  cbv zeta.
  apply sat_bind with (Q := fun _ => True); [walk | intros src _].
  apply sat_bind with (Q := fun _ => True); [walk | intros r _].
  apply sat_bind with (Q := fun _ => True); [walk | intros input _].
  apply sat_bind with (Q := fun _ => True); [walk | intros input' _].
  now apply sat_ret.
Qed.

Lemma postSources_emits (name : string) (full : bool) (d : Deployment)
      (data : PostData) :
  emits' full d (Post host data) ->
  sat (emits' full d) (fun guid => guid <> "")
      (postSources env host name data).
Proof.
  intros Hpost. unfold postSources.
  apply sat_bind with (Q := fun _ => True);
    [now apply sat_exchange | intros answer _].
  apply sat_bind with (Q := fun _ => True); [walk | intros guid _].
  destruct guid as [g |]; simpl; [| apply sat_abort; exact I].
  destruct (String.eqb_spec g ""); simpl;
    [apply sat_abort; exact I | now apply sat_ret].
Qed.

Lemma verify_absent (P : event -> Prop) (name : string)
      (useSolcInput : bool) :
  obj_get name all = None ->
  sat P (fun _ => False)
      (verify env solcInputsPath licenseOption forceLicense etherscanApiKey
              all host budget name useSolcInput).
Proof.
  intros Hd. unfold verify.
  apply sat_bind with (Q := fun _ => False); [| intros ? []].
  unfold prepare. rewrite Hd. cbn [defined].
  apply sat_bind with (Q := fun _ => False); [apply sat_halt | intros ? []].
Qed.

Lemma verify_emits (name : string) (useSolcInput : bool) :
  sat (emitsFor' useSolcInput all name) (fun _ => True)
      (verify env solcInputsPath licenseOption forceLicense etherscanApiKey
              all host budget name useSolcInput).
Proof.
  destruct (obj_get name all) as [d |] eqn:Hd.
  - apply sat_events with (P := emits' useSolcInput d);
      [intros e He; now exists d |].
    unfold verify.
    eapply sat_bind; [now apply prepare_emits | intros p Hp]. cbv zeta.
    rewrite Hp.
    apply sat_bind with (Q := fun _ => True); [walk | intros _ _].
    apply sat_bind with (Q := fun _ => True);
      [unfold encodeArguments; walk | intros encoded _].
    eapply sat_bind;
      [apply postSources_emits; repeat split; exact Hp | intros guid Hguid].
    apply sat_bind with (Q := fun _ => True); [walk | intros _ _].
    apply sat_weaken with (Q := fun r => truthy_str r = true); [trivial |].
    apply waitForResult_sat; [reflexivity |]. unfold checkStatus. walk.
  - eapply sat_weaken; [| now apply verify_absent]. trivial.
Qed.

Lemma submit_emits (name : string) (depth : nat) :
  forall useSolcInput,
    sat (emitsFor' (useSolcInput || fallbackOnSolcInput) all name)
        (fun _ => True)
        (submit env solcInputsPath fallbackOnSolcInput licenseOption
                forceLicense etherscanApiKey all host budget depth name
                useSolcInput).
Proof.
  induction depth as [| depth IH]; intros u; cbn [submit].
  - apply sat_halt.
  - apply sat_call. unfold submitBody.
    destruct (obj_get name all) as [d |] eqn:Hd.
    + assert (Hfree : forall l m,
                 match m with
                 | Payload _ | UnsupportedNetwork _ => False
                 | _ => True
                 end ->
                 emitsFor' (u || fallbackOnSolcInput) all name (Log l m)).
      { intros l m Hm. exists d. split; [exact Hd |]. now destruct m. }
      apply sat_bind with (Q := fun _ => True).
      * apply sat_events with (P := emitsFor' u all name);
          [| apply verify_emits].
        intros e (d' & Hd' & He). exists d'. split; [exact Hd' |].
        destruct u; [exact He |]. simpl.
        destruct e as [l [] | | | | |]; simpl in *; trivial.
        destruct He as (Hfalse & _). discriminate Hfalse.
      * intros r _. unfold conclude.
        apply sat_bind with (Q := fun _ => True).
        -- destruct (str_eq r (Some "success"));
             [apply sat_emit; now apply Hfree | now apply sat_ret].
        -- intros _ _. destruct (str_eq r (Some "failure"));
             [| now apply sat_ret].
           destruct (negb u && fallbackOnSolcInput) eqn:E;
             [| apply sat_emit; now apply Hfree].
           apply sat_bind with (Q := fun _ => True);
             [apply sat_emit; now apply Hfree | intros _ _].
           apply andb_prop in E. destruct E as [Hu Hf].
           apply negb_true_iff in Hu. subst u.
           apply sat_events with (P := emitsFor' true all name);
             [| exact (IH true)].
           intros e He. simpl. now rewrite Hf.
    + apply sat_bind with (Q := fun _ => False); [| intros ? []].
      now apply verify_absent.
Qed.
End EmitFacts.

(** Every event of a batch is the refusal of the chain, or belongs to the
    submission of one of the deployments to the explorer of the chain. *)
Lemma batch_emits (env : Env) (chainId : string) (all : obj Deployment)
      (solcInputsPath : string) (config : option Config) (budget : nat) :
  let cfg := match config with Some c => c | None => defaultConfig end in
  sat (fun e =>
         e = Log Error (UnsupportedNetwork chainId) \/
         exists host name,
           explorerHost chainId = Some host /\
           emitsFor (etherscanApiKey cfg) host solcInputsPath
                    (fallbackOnSolcInput cfg) all name e)
      (fun _ => True)
      (submitSources env chainId all solcInputsPath config budget).
Proof.
  intros cfg. unfold submitSources. fold cfg.
  destruct (explorerHost chainId) as [host |].
  - apply forEach_sat. intros name.
    eapply sat_events; [| apply submit_emits].
    intros e He. right. now exists host, name.
  - apply sat_call. apply sat_abort. now left.
Qed.

(** X17. Whatever a batch posts goes to the explorer of the chain with the
    configured key, as a standard-json verification of module [contract],
    and describes one of the deployments: its address, the compilation
    target of its metadata as [path:name], and the compiler version of that
    metadata behind a [v]. *)
Theorem posted_payload_describes_deployment (env : Env) (chainId : string)
        (all : obj Deployment) (solcInputsPath : string)
        (config : option Config) (budget t : nat) (h : string)
        (data : PostData) :
  In (Post h data)
     (trace (submitSources env chainId all solcInputsPath config budget t)) ->
  explorerHost chainId = Some h /\
  apikey data =
  match config with Some c => etherscanApiKey c | None => None end /\
  module data = "contract" /\ action data = "verifysourcecode" /\
  codeformat data = "solidity-standard-json-input" /\
  exists name d md fp cn,
    obj_get name all = Some d /\
    JSON_parse_metadata env (js_string (metadata d)) = Some md /\
    compilationTargetOf md = (Some fp, Some cn) /\
    contractaddress data = address d /\
    contractname data = (fp ++ ":" ++ cn)%string /\
    compilerversion data = ("v" ++ metadata_compiler_version md)%string.
Proof.
  intros Hin.
  set (P := fun e =>
              match e with
              | Post h data =>
                  explorerHost chainId = Some h /\
                  apikey data =
                  match config with
                  | Some c => etherscanApiKey c
                  | None => None
                  end /\
                  module data = "contract" /\
                  action data = "verifysourcecode" /\
                  codeformat data = "solidity-standard-json-input" /\
                  exists name d md fp cn,
                    obj_get name all = Some d /\
                    JSON_parse_metadata env (js_string (metadata d)) =
                    Some md /\
                    compilationTargetOf md = (Some fp, Some cn) /\
                    contractaddress data = address d /\
                    contractname data = (fp ++ ":" ++ cn)%string /\
                    compilerversion data =
                    ("v" ++ metadata_compiler_version md)%string
              | _ => True
              end).
  refine (sat_in P (fun _ : unit => True) _ t (Post h data) _ Hin).
  unfold submitSources. destruct (explorerHost chainId) as [host |] eqn:Hh.
  - apply forEach_sat. intros name.
    apply submit_sat; [now intros [] | intros u].
    apply verify_sat with
      (R := fun p =>
              exists d md fp cn,
                obj_get name all = Some d /\
                JSON_parse_metadata env (js_string (metadata d)) = Some md /\
                compilationTargetOf md = (Some fp, Some cn) /\
                the_deployment p = d /\ the_metadata p = md /\
                the_contractNamePath p = (fp ++ ":" ++ cn)%string);
      [now intros [] | |].
    + apply prepare_sat. intros d md fp cn src r input Hd Hmd Ht _ _ _ _.
      now exists d, md, fp, cn.
    + intros p encoded (d & md & fp & cn & Hd & Hmd & Ht & Hp & Hm & Hc) _.
      simpl. rewrite Hp, Hm, Hc.
      split; [reflexivity |]. split; [now destruct config |].
      do 3 (split; [reflexivity |]). now exists name, d, md, fp, cn.
  - apply sat_call. apply sat_abort. exact I.
Qed.

Lemma posted_payload_describes_deployment_witness :
  let data :=
    mkPostData (Some "KEY") "contract" "verifysourcecode" "0xF00" "Solidity"
               "solidity-standard-json-input" "A.sol:Foo" "v0.7.6" None
               (Some 5%Z) in
  let run :=
    submitSources (Demo.env Demo.unverified Demo.passes) "1"
                  [("Foo", Demo.foo)] "inputs"
                  (Some (mkConfig (Some "KEY") (Some "GPL-3.0") true true))
                  5 0 in
  In (Post "http://api.etherscan.io" data) (trace run) /\
  contractname data = "A.sol:Foo" /\
  explorerHost "1" = Some "http://api.etherscan.io".
Proof.
  intros data run.
  assert (H : In (Post "http://api.etherscan.io" data) (trace run)).
  { vm_compute. right. right. left. reflexivity. }
  split; [exact H |]. split; [reflexivity |].
  exact (proj1 (posted_payload_describes_deployment _ _ _ _ _ _ _ _ _ H)).
Defined.

(** X18. Every query of a batch, for the ABI of a contract or for the
    status of a submission, goes to the explorer of the chain with the
    configured key; an ABI is asked for the address of a deployment only,
    and a status for a guid that is not empty. *)
Theorem queries_reach_the_explorer (env : Env) (chainId : string)
        (all : obj Deployment) (solcInputsPath : string)
        (config : option Config) (budget t : nat) (h : string)
        (key : option string) :
  let run := submitSources env chainId all solcInputsPath config budget t in
  let configured :=
    match config with Some c => etherscanApiKey c | None => None end in
  (forall a,
      In (GetAbi h a key) (trace run) ->
      explorerHost chainId = Some h /\ key = configured /\
      exists name d, obj_get name all = Some d /\ a = address d) /\
  (forall guid,
      In (CheckVerifyStatus h key guid) (trace run) ->
      explorerHost chainId = Some h /\ key = configured /\ guid <> "").
Proof.
  intros run configured. split.
  - intros a Hin.
    destruct (sat_in _ _ _ t _ (batch_emits env chainId all solcInputsPath
                                            config budget) Hin)
      as [Heq | (host & name & Hh & d & Hd & He)]; [discriminate Heq |].
    destruct He as (-> & -> & ->). split; [exact Hh |].
    split; [now destruct config |]. now exists name, d.
  - intros guid Hin.
    destruct (sat_in _ _ _ t _ (batch_emits env chainId all solcInputsPath
                                            config budget) Hin)
      as [Heq | (host & name & Hh & d & Hd & He)]; [discriminate Heq |].
    destruct He as (-> & -> & Hguid). split; [exact Hh |].
    split; [now destruct config | exact Hguid].
Qed.

Lemma queries_reach_the_explorer_witness :
  let run :=
    submitSources (Demo.env Demo.unverified Demo.passes) "1"
                  [("Foo", Demo.foo)] "inputs"
                  (Some (mkConfig (Some "KEY") (Some "GPL-3.0") true true))
                  5 0 in
  In (GetAbi "http://api.etherscan.io" "0xF00" (Some "KEY")) (trace run) /\
  exists name d, obj_get name [("Foo", Demo.foo)] = Some d /\
                 "0xF00" = address d.
Proof.
  intros run.
  assert (H : In (GetAbi "http://api.etherscan.io" "0xF00" (Some "KEY"))
                 (trace run)).
  { vm_compute. left. reflexivity. }
  split; [exact H |].
  exact (proj2 (proj2 (proj1 (queries_reach_the_explorer _ _ _ _ _ _ _ _ _)
                             _ H))).
Defined.

(** X19. A batch reads a file only when [fallbackOnSolcInput] is set, and
    then only the file [<solcInputHash>.json] of a deployment, in the
    directory of compiler inputs it was given. *)
Theorem files_read_only_on_fallback (env : Env) (chainId : string)
        (all : obj Deployment) (solcInputsPath : string)
        (config : option Config) (budget t : nat) (dir file : string) :
  In (ReadFile dir file)
     (trace (submitSources env chainId all solcInputsPath config budget t)) ->
  (exists c, config = Some c /\ fallbackOnSolcInput c = true) /\
  dir = solcInputsPath /\
  exists name d,
    obj_get name all = Some d /\
    file = (js_string (solcInputHash d) ++ ".json")%string.
Proof.
  intros Hin.
  destruct (sat_in _ _ _ t _ (batch_emits env chainId all solcInputsPath
                                          config budget) Hin)
    as [Heq | (host & name & Hh & d & Hd & He)]; [discriminate Heq |].
  destruct He as (Hfull & -> & ->). split.
  - destruct config as [c |]; [now exists c | discriminate Hfull].
  - split; [reflexivity | now exists name, d].
Qed.

Lemma files_read_only_on_fallback_witness :
  let run :=
    submitSources (Demo.env Demo.unverified Demo.fails) "1"
                  [("Foo", Demo.foo)] "inputs"
                  (Some (mkConfig (Some "KEY") None true false))
                  5 0 in
  In (ReadFile "inputs" "1234.json") (trace run) /\
  exists name d,
    obj_get name [("Foo", Demo.foo)] = Some d /\
    "1234.json" = (js_string (solcInputHash d) ++ ".json")%string.
Proof.
  intros run.
  assert (H : In (ReadFile "inputs" "1234.json") (trace run)).
  { vm_compute. do 10 right. left. reflexivity. }
  split; [exact H |].
  exact (proj2 (proj2 (files_read_only_on_fallback _ _ _ _ _ _ _ _ _ H))).
Defined.

(** X20. The only payload a batch ever logs is logged as an error and is
    masked: its key reads [XXXXXX] and its source [...], whatever was
    posted; it still names the address of a deployment. *)
Theorem logged_payloads_are_masked (env : Env) (chainId : string)
        (all : obj Deployment) (solcInputsPath : string)
        (config : option Config) (budget t : nat) (l : level)
        (data : PostData) :
  In (Log l (Payload data))
     (trace (submitSources env chainId all solcInputsPath config budget t)) ->
  l = Error /\ apikey data = Some "XXXXXX" /\ sourceCode data = "..." /\
  exists name d, obj_get name all = Some d /\
                 contractaddress data = address d.
Proof.
  intros Hin.
  destruct (sat_in _ _ _ t _ (batch_emits env chainId all solcInputsPath
                                          config budget) Hin)
    as [Heq | (host & name & Hh & d & Hd & He)]; [discriminate Heq |].
  destruct He as (-> & Hkey & Hsrc & Haddr).
  repeat split; trivial. now exists name, d.
Qed.

Lemma logged_payloads_are_masked_witness :
  let data :=
    mkPostData (Some "XXXXXX") "contract" "verifysourcecode" "0xF00" "..."
               "solidity-standard-json-input" "A.sol:Foo" "v0.7.6" None
               (Some 3%Z) in
  let run :=
    submitSources (Demo.env Demo.unverified Demo.fails) "1"
                  [("Foo", Demo.foo)] "inputs"
                  (Some (mkConfig (Some "KEY") None false false))
                  5 0 in
  In (Log Error (Payload data)) (trace run) /\
  apikey data = Some "XXXXXX" /\ sourceCode data = "...".
Proof.
  intros data run.
  assert (H : In (Log Error (Payload data)) (trace run)).
  { vm_compute. do 7 right. left. reflexivity. }
  split; [exact H |].
  destruct (logged_payloads_are_masked _ _ _ _ _ _ _ _ _ H)
    as (_ & Hkey & Hsrc & _).
  split; [exact Hkey | exact Hsrc].
Defined.

(** ** The full compiler input *)

Section InputFacts.
Variable env : Env.
Variable solcInputsPath : string.
Variable fallbackOnSolcInput : bool.
Variable licenseOption : option string.
Variable forceLicense : bool.
Variable etherscanApiKey : option string.
Variable all : obj Deployment.
Variable host : string.
Variable budget : nat.

Lemma prepare_without_input (name : string) (d : Deployment) :
  obj_get name all = Some d ->
  truthy_str (readFileSync env solcInputsPath
                           (js_string (solcInputHash d) ++ ".json")) = false ->
  sat (fun e =>
         match e with
         | Post _ _ | Sleep _ | CheckVerifyStatus _ _ _ => False
         | _ => True
         end)
      (fun _ => False)
      (prepare env solcInputsPath licenseOption forceLicense etherscanApiKey
               all host name true).
Proof.
  intros Hd Hfile.
  unfold prepare, checkExisting, readMetadata, readTarget, resolveLicense,
    buildInput.
  rewrite Hd. cbn [defined].
  apply sat_bind with (Q := fun d' => d' = d);
    [now apply sat_ret | intros d' ->].
  apply sat_bind with (Q := fun _ => True); [walk | intros _ _].
  apply sat_bind with (Q := fun _ => True); [walk | intros md _].
  apply sat_bind with (Q := fun _ => True); [walk | intros target _].
  cbv zeta.
  apply sat_bind with (Q := fun _ => True); [walk | intros src _].
  apply sat_bind with (Q := fun _ => True); [walk | intros r _].
  apply sat_bind with (Q := fun _ => False); [| intros ? []].
  apply sat_bind with (Q := fun _ => True);
    [apply sat_emit; exact I | intros _ _].
  rewrite Hfile. apply sat_abort. exact I.
Qed.
End InputFacts.

(** X21. In full-input mode a deployment whose compiler input cannot be
    read, or is an empty file, is not submitted: the call of [submit] posts
    nothing, never pauses and never asks for a status. *)
Theorem missing_input_is_not_posted (env : Env) (solcInputsPath : string)
        (fallbackOnSolcInput : bool) (licenseOption : option string)
        (forceLicense : bool) (etherscanApiKey : option string)
        (all : obj Deployment) (host : string) (budget depth : nat)
        (name : string) (d : Deployment) (t : nat) :
  obj_get name all = Some d ->
  truthy_str (readFileSync env solcInputsPath
                           (js_string (solcInputHash d) ++ ".json")) = false ->
  Forall (fun e =>
            match e with
            | Post _ _ | Sleep _ | CheckVerifyStatus _ _ _ => False
            | _ => True
            end)
         (trace (submit env solcInputsPath fallbackOnSolcInput licenseOption
                        forceLicense etherscanApiKey all host budget depth
                        name true t)).
Proof.
  intros Hd Hfile.
  match goal with
  | |- Forall ?P (trace (?m t)) =>
      enough (H : sat P (fun _ : unit => True) m) by exact (proj1 (H t))
  end.
  destruct depth as [| depth]; cbn [submit]; [apply sat_halt |].
  apply sat_call. unfold submitBody.
  apply sat_bind with (Q := fun _ => False); [| intros ? []].
  unfold verify.
  apply sat_bind with (Q := fun _ => False); [| intros ? []].
  now apply prepare_without_input with (d := d).
Qed.

Lemma missing_input_is_not_posted_witness :
  Forall (fun e =>
            match e with
            | Post _ _ | Sleep _ | CheckVerifyStatus _ _ _ => False
            | _ => True
            end)
         (trace (submit (Cases.env Demo.unverified Cases.accepted
                                   Demo.passes Cases.noFiles)
                        "inputs" false None false (Some "KEY")
                        [("Foo", Demo.foo)] "http://api.etherscan.io" 5 2
                        "Foo" true 0)).
Proof.
  apply missing_input_is_not_posted with (d := Demo.foo); reflexivity.
Defined.

(** ** The libraries of other contracts *)

Lemma addLibrary_frame (contractNamePath : string) (libs libs' : obj linkage)
      (entry : string * string) :
  addLibrary contractNamePath libs entry = Some libs' ->
  (forall k, k <> contractNamePath -> obj_get k libs' = obj_get k libs) /\
  (forall lib, fst entry <> lib ->
               obj_get lib (linkedOf contractNamePath libs') =
               obj_get lib (linkedOf contractNamePath libs)).
Proof.
  unfold addLibrary.
  assert (Hfresh :
            forall libs0 : obj linkage,
              libs' = obj_set contractNamePath
                              (Linked (linkLibrary (fst entry) (snd entry) []))
                              (obj_set contractNamePath (Linked []) libs0) ->
              linkedOf contractNamePath libs0 = [] ->
              (forall k, k <> contractNamePath ->
                         obj_get k libs' = obj_get k libs0) /\
              (forall lib, fst entry <> lib ->
                           obj_get lib (linkedOf contractNamePath libs') =
                           obj_get lib (linkedOf contractNamePath libs0))).
  { intros libs0 -> Hnone. split.
    - intros k Hk. rewrite !obj_get_set_other by congruence. reflexivity.
    - intros lib Hlib. rewrite linkedOf_set, Hnone.
      now apply linkLibrary_get_other. }
  destruct (obj_get contractNamePath libs) as [[a | o] |] eqn:E; simpl.
  - destruct (String.eqb_spec a "") as [-> | Hne]; simpl.
    + rewrite obj_get_set_same. intros [= <-]. apply Hfresh; [reflexivity |].
      unfold linkedOf. now rewrite E.
    + rewrite E. destruct (fst entry =? "__proto__"); [| discriminate].
      intros [= <-]. now split.
  - rewrite E. intros [= <-]. split.
    + intros k Hk. apply obj_get_set_other. congruence.
    + intros lib Hlib. rewrite linkedOf_set. unfold linkedOf. rewrite E.
      now apply linkLibrary_get_other.
  - rewrite obj_get_set_same. intros [= <-]. apply Hfresh; [reflexivity |].
    unfold linkedOf. now rewrite E.
Qed.

Lemma addEach_frame (contractNamePath : string) (declared : obj string) :
  forall libs libs',
    addEach contractNamePath declared libs = Some libs' ->
    (forall k, k <> contractNamePath -> obj_get k libs' = obj_get k libs) /\
    (forall lib, obj_get lib (rev declared) = None ->
                 obj_get lib (linkedOf contractNamePath libs') =
                 obj_get lib (linkedOf contractNamePath libs)).
Proof.
  induction declared as [| [k0 v0] rest IH]; intros libs libs' Heach.
  - simpl in Heach. injection Heach as <-. now split.
  - cbn [addEach] in Heach.
    destruct (addLibrary contractNamePath libs (k0, v0)) as [libs1 |] eqn:E;
      [| discriminate Heach].
    destruct (addLibrary_frame _ _ _ _ E) as [Hother1 Hslot1].
    destruct (IH _ _ Heach) as [Hother Hslot]. split.
    + intros k Hk. now rewrite Hother, Hother1.
    + intros lib Hlib. simpl in Hlib. rewrite obj_get_app in Hlib.
      destruct (obj_get lib (rev rest)) eqn:Hrest; [discriminate Hlib |].
      simpl in Hlib. destruct (String.eqb_spec k0 lib) as [-> | Hne];
        [discriminate Hlib |].
      rewrite Hslot by exact Hrest. now apply Hslot1.
Qed.

(** X22. Merging the libraries of a deployment touches only the slot of its
    contract: the compilation target and the other settings stay, every
    other entry of [settings.libraries] reads as before, and a library
    linked for the contract before is kept unless the deployment declares
    it anew. *)
Theorem merge_touches_one_slot (contractNamePath : string)
        (declared : obj string) (s merged : Settings) :
  mergeLibraries contractNamePath declared s = Some merged ->
  let before :=
    match settings_libraries s with Some l => l | None => [] end in
  compilationTarget merged = compilationTarget s /\
  settings_other merged = settings_other s /\
  exists after,
    settings_libraries merged = Some after /\
    (forall k, k <> contractNamePath -> obj_get k after = obj_get k before) /\
    (forall lib,
        obj_get lib (rev declared) = None ->
        obj_get lib (linkedOf contractNamePath after) =
        obj_get lib (linkedOf contractNamePath before)).
Proof.
  intros Hmerge before. unfold mergeLibraries in Hmerge.
  fold before in Hmerge.
  destruct (addEach contractNamePath declared before) as [after |] eqn:Heach;
    [| discriminate Hmerge].
  injection Hmerge as <-. simpl. split; [reflexivity |].
  split; [reflexivity |]. exists after. split; [reflexivity |].
  now apply addEach_frame with (declared := declared).
Qed.

Lemma merge_touches_one_slot_witness :
  let s :=
    mkSettings None
               (Some [("B.sol:Bar", Address "0xbbb");
                      ("A.sol:Foo", Linked [("L0", "0x000")])]) [] in
  exists merged,
    mergeLibraries "A.sol:Foo" [("L1", "0xaaa")] s = Some merged /\
    exists after,
      settings_libraries merged = Some after /\
      obj_get "B.sol:Bar" after = Some (Address "0xbbb") /\
      obj_get "L0" (linkedOf "A.sol:Foo" after) = Some "0x000".
Proof.
  intros s. eexists. split; [reflexivity |].
  destruct (merge_touches_one_slot "A.sol:Foo" [("L1", "0xaaa")] s _ eq_refl)
    as (_ & _ & after & Hafter & Hother & Hkept).
  exists after. split; [exact Hafter |]. split.
  - now rewrite Hother.
  - now rewrite Hkept.
Defined.

(** ** The order of the sources *)

Lemma keys_filter {V : Type} (o : obj V) :
  keys (filter notProto o) =
  filter (fun k => negb (k =? "__proto__")) (keys o).
Proof.
  induction o as [| [k v] o IH]; simpl; [reflexivity |].
  unfold notProto at 1. simpl. destruct (k =? "__proto__"); simpl;
    [exact IH | now rewrite IH].
Qed.

(** X23. The sources of the input built from the metadata are those of the
    metadata in the same order, each reduced to its content, but for a
    source named [__proto__], which is left out. *)
Theorem sources_keep_their_order (md : Metadata) :
  NoDup (keys (metadata_sources md)) ->
  sources (metadataInput md) =
  map (fun kv => (fst kv, mkSourceEntry (content (snd kv)) []))
      (filter notProto (metadata_sources md)) /\
  keys (sources (metadataInput md)) =
  filter (fun k => negb (k =? "__proto__")) (keys (metadata_sources md)).
Proof.
  intros Hnd. simpl. rewrite (copySources_map _ Hnd). split; [reflexivity |].
  rewrite <- keys_filter. unfold keys. rewrite map_map. reflexivity.
Qed.

Lemma sources_keep_their_order_witness :
  NoDup (keys (metadata_sources Cases.protoSource)) /\
  keys (sources (metadataInput Demo.fooMetadata)) = ["A.sol"; "B.sol"] /\
  keys (sources (metadataInput Cases.protoSource)) = ["A.sol"].
Proof.
  assert (Hfoo : NoDup (keys (metadata_sources Demo.fooMetadata)))
    by (repeat constructor; simpl; intuition discriminate).
  assert (Hproto : NoDup (keys (metadata_sources Cases.protoSource)))
    by (repeat constructor; simpl; intuition discriminate).
  split; [exact Hproto |]. split.
  - exact (proj2 (sources_keep_their_order Demo.fooMetadata Hfoo)).
  - exact (proj2 (sources_keep_their_order Cases.protoSource Hproto)).
Defined.

(** ** The first request of an attempt *)

Lemma bind_prefix {A B : Type} (m : M A) (k : A -> M B) (t : nat) :
  exists rest, trace (bind m k t) = trace (m t) ++ rest.
Proof.
  unfold bind. destruct (value (m t)); simpl.
  - eexists. reflexivity.
  - exists []. now rewrite app_nil_r.
Qed.

Lemma call_trace (m : M unit) (t : nat) : trace (call m t) = trace (m t).
Proof. unfold call. now destruct (value (m t)) as [| []]. Qed.

(** X24. Every attempt at a deployment, the retry with the full input like
    the first, begins by asking the explorer for the ABI at the address of
    the deployment: nothing is logged, read or posted before. *)
Theorem attempt_begins_with_abi_query (env : Env) (solcInputsPath : string)
        (fallbackOnSolcInput : bool) (licenseOption : option string)
        (forceLicense : bool) (etherscanApiKey : option string)
        (all : obj Deployment) (host : string) (budget depth : nat)
        (name : string) (useSolcInput : bool) (d : Deployment) (t : nat) :
  obj_get name all = Some d ->
  exists rest,
    trace (submit env solcInputsPath fallbackOnSolcInput licenseOption
                  forceLicense etherscanApiKey all host budget (S depth)
                  name useSolcInput t) =
    GetAbi host (address d) etherscanApiKey :: rest.
Proof.
  intros Hd. cbn [submit]. rewrite call_trace. unfold submitBody.
  match goal with
  | |- context [trace (bind ?m ?k t)] =>
      destruct (bind_prefix m k t) as [r1 ->]
  end.
  unfold verify.
  match goal with
  | |- context [trace (bind ?m ?k t)] =>
      destruct (bind_prefix m k t) as [r2 ->]
  end.
  unfold prepare. rewrite Hd. cbn [defined]. rewrite bind_ret_l.
  match goal with
  | |- context [trace (bind ?m ?k t)] =>
      destruct (bind_prefix m k t) as [r3 ->]
  end.
  unfold checkExisting.
  match goal with
  | |- context [trace (bind ?m ?k t)] =>
      destruct (bind_prefix m k t) as [r4 ->]
  end.
  unfold exchange.
  destruct (answer_getabi env t (address d)); simpl; eexists; reflexivity.
Qed.

Lemma attempt_begins_with_abi_query_witness :
  exists rest,
    trace (submit (Demo.env Demo.unverified Demo.passes) "inputs" true None
                  false (Some "KEY") [("Foo", Demo.foo)]
                  "http://api.etherscan.io" 5 2 "Foo" true 0) =
    GetAbi "http://api.etherscan.io" (address Demo.foo) (Some "KEY") :: rest.
Proof.
  apply attempt_begins_with_abi_query. reflexivity.
Defined.
